(** * Travel concierge: tools, calendar adapter and chat session

    A shallow embedding of [travel_agent.py] (the five tools and the tool
    list handed to the agent executor) and of [app.py] (the Streamlit chat
    handler), with the properties of the design specification stated and
    proved over it.

    Python values are modelled as follows.
    - [str] is [string]; an f-string is a concatenation with [+:+].
    - [Optional[str]] is [option string]; Python truthiness ([if x:]) is
      written out ([truthy]).
    - A call that may raise returns an [Outcome]: [Returned v] or
      [Raised e]; [try ... except C] is [try_except].
    - [print], the file system and the calls made to outside services are
      effects on an explicit [World], threaded by the monad [M].
    - What the outside answers (the clock, the date parser, the OAuth
      endpoints, the calendar API) is an [Env] of functions. *)

From Stdlib Require Import ZArith Bool Lia Ascii PrimFloat.
From stdpp Require Import base option list strings gmap.

Local Open Scope Z_scope.

(** ** Exceptions *)

(** The exception classes that the modelled calls can raise.  [BaseError]
    stands for the classes outside [Exception] ([KeyboardInterrupt],
    [SystemExit]). *)
Inductive ExnClass : Set :=
  | ValueError
  | TypeError
  | OverflowError
  | OSError
  | FileNotFoundError
  | RefreshError
  | TransportError
  | HttpError
  | BaseError.

#[global] Instance ExnClass_eq_dec : EqDecision ExnClass.
Proof. solve_decision. Defined.

(** An exception object: its class and [str(e)]. *)
Record Exn : Set := mkExn { exn_class : ExnClass; exn_str : string }.

(** [isinstance(e, ValueError)]. *)
Definition is_ValueError (e : Exn) : bool :=
  match exn_class e with
  | ValueError => true
  | _ => false
  end.

(** [isinstance(e, Exception)]. *)
Definition is_Exception (e : Exn) : bool :=
  match exn_class e with
  | BaseError => false
  | _ => true
  end.

Inductive Outcome (A : Type) : Type :=
  | Returned (a : A)
  | Raised (e : Exn).
Arguments Returned {A} a.
Arguments Raised {A} e.

(** ** The world the tools act on *)

(** Calls that leave the process, in the order they are made. *)
Inductive Call : Type :=
  | CallRefresh                         (* creds.refresh(Request()) *)
  | CallConsentFlow                     (* flow.run_local_server(port=0) *)
  | CallInsertEvent.                    (* service.events().insert(...).execute() *)

#[global] Instance Call_eq_dec : EqDecision Call.
Proof. solve_decision. Defined.

Record World : Type := mkWorld {
  stdout : list string;                 (* one entry per [print] *)
  files : gmap string string;           (* path |-> contents *)
  calls : list Call;                    (* outside calls, oldest first *)
  writes : list (string * string)       (* completed file writes, oldest first *)
}.

Definition M (A : Type) : Type := World -> Outcome A * World.

Definition ret {A} (a : A) : M A := fun w => (Returned a, w).

Definition bind {A B} (m : M A) (k : A -> M B) : M B :=
  fun w =>
    match m w with
    | (Returned a, w') => k a w'
    | (Raised e, w') => (Raised e, w')
    end.

(** [try: body except <catches> as e: handler e]. *)
Definition try_except {A} (body : M A) (catches : Exn -> bool)
    (handler : Exn -> M A) : M A :=
  fun w =>
    match body w with
    | (Returned a, w') => (Returned a, w')
    | (Raised e, w') => if catches e then handler e w' else (Raised e, w')
    end.

(** Lifts the answer of an outside call into [M]. *)
Definition lift {A} (o : Outcome A) : M A := fun w => (o, w).

Declare Scope py_scope.
Delimit Scope py_scope with py.
Notation "x <- m ;; k" := (bind m (fun x => k))
  (at level 100, m at next level, right associativity) : py_scope.
Notation "m ;;; k" := (bind m (fun _ => k))
  (at level 100, right associativity) : py_scope.
Local Open Scope py_scope.

Definition print (s : string) : M unit :=
  fun w => (Returned tt,
            {| stdout := stdout w ++ [s]; files := files w;
               calls := calls w; writes := writes w |}).

Definition record_call (c : Call) : M unit :=
  fun w => (Returned tt,
            {| stdout := stdout w; files := files w;
               calls := calls w ++ [c]; writes := writes w |}).

(** The contents of [path], [None] when [os.path.exists(path)] is false. *)
Definition read_path (path : string) : M (option string) :=
  fun w => (Returned (files w !! path), w).

Definition outcome_of {A} (m : M A) (w : World) : Outcome A := fst (m w).

Definition world_after {A} (m : M A) (w : World) : World := snd (m w).

(** How many times the call [c] was made so far. *)
Definition calls_of (c : Call) (w : World) : nat :=
  length (filter (λ x, x = c) (calls w)).

(** ** Strings *)

Definition LF : string := String "010"%char EmptyString.

(** Python truthiness of a [str] and of an [Optional[str]]. *)
Definition str_truthy (s : string) : bool :=
  match s with
  | EmptyString => false
  | String _ _ => true
  end.

Definition truthy (o : option string) : bool :=
  match o with
  | None => false
  | Some s => str_truthy s
  end.

(** Python's [s.split(sep)] for a non-empty [sep].  The scan goes left to right; [skip] counts the characters of a separator
    just matched that are still to be passed over, [cur] is the piece being
    collected.  A separator at the very end yields a last empty piece, as in
    Python. *)
Fixpoint split_from (sep s : string) (skip : nat) (cur : string) : list string :=
  match s with
  | EmptyString => [cur]
  | String c s' =>
      match skip with
      | S k => split_from sep s' k cur
      | O =>
          if String.prefix sep s
          then cur :: split_from sep s' (String.length sep - 1) EmptyString
          else split_from sep s' 0 (cur +:+ String c EmptyString)
      end
  end.

Definition split (sep s : string) : list string := split_from sep s 0 EmptyString.

(** [a, b = parts]: unpacking into exactly two names. *)
Definition unpack2 (parts : list string) : Outcome (string * string) :=
  match parts with
  | [a; b] => Returned (a, b)
  | [] | [_] =>
      Raised (mkExn ValueError "not enough values to unpack (expected 2)")
  | _ => Raised (mkExn ValueError "too many values to unpack (expected 2)")
  end.

(** ** Dates *)

Record date : Set := mkDate { year : Z; month : Z; day : Z }.

#[global] Instance date_eq_dec : EqDecision date.
Proof. solve_decision. Defined.

(** [datetime.datetime]; only the date part is ever formatted. *)
Record datetime : Set := mkDatetime {
  dt_date : date; dt_hour : Z; dt_minute : Z; dt_second : Z
}.

Definition MAXYEAR : Z := 9999.

Definition is_leap (y : Z) : bool :=
  (y mod 4 =? 0) && (negb (y mod 100 =? 0) || (y mod 400 =? 0)).

Definition days_in_month (y m : Z) : Z :=
  if m =? 2 then (if is_leap y then 29 else 28)
  else if (m =? 4) || (m =? 6) || (m =? 9) || (m =? 11) then 30
  else 31.

Definition valid_date (d : date) : bool :=
  (1 <=? year d) && (year d <=? MAXYEAR) &&
  (1 <=? month d) && (month d <=? 12) &&
  (1 <=? day d) && (day d <=? days_in_month (year d) (month d)).

Definition next_day (d : date) : date :=
  if day d <? days_in_month (year d) (month d)
  then mkDate (year d) (month d) (day d + 1)
  else if month d <? 12
       then mkDate (year d) (month d + 1) 1
       else mkDate (year d + 1) 1 1.

(** [d + datetime.timedelta(days=n)], which raises [OverflowError] past
    [date.max]. *)
Definition date_add_days (d : date) (n : nat) : Outcome date :=
  let d' := Nat.iter n next_day d in
  if year d' <=? MAXYEAR then Returned d'
  else Raised (mkExn OverflowError "date value out of range").

Definition digit (n : Z) : ascii := ascii_of_nat (48 + Z.to_nat (n mod 10)).

Definition pad2 (n : Z) : string :=
  String (digit (n / 10)) (String (digit n) EmptyString).

Definition pad4 (n : Z) : string :=
  String (digit (n / 1000)) (String (digit (n / 100)) (pad2 n)).

(** [%Y] as CPython prints it through the C library on Linux: the year in
    decimal, with no padding (["999"] for the year 999); a date's year lies
    within 1..9999. *)
Definition year_decimal (y : Z) : string :=
  if y <? 10 then String (digit y) EmptyString
  else if y <? 100 then pad2 y
  else if y <? 1000 then String (digit (y / 100)) (pad2 y)
  else pad4 y.

(** [d.strftime("%Y-%m-%d")]. *)
Definition strftime_Ymd (d : date) : string :=
  year_decimal (year d) +:+ "-" +:+ pad2 (month d) +:+ "-" +:+ pad2 (day d).

(** [str(d)], that is [d.isoformat()]: the year always on four digits. *)
Definition date_isoformat (d : date) : string :=
  pad4 (year d) +:+ "-" +:+ pad2 (month d) +:+ "-" +:+ pad2 (day d).

(** ** The outside *)

(** What the code reads of a [google.oauth2.credentials.Credentials]. *)
Record Credentials : Type := mkCreds {
  token : option string;                (* creds.token *)
  expired : bool;                       (* creds.expired, at the time of the call *)
  refresh_token : option string;        (* creds.refresh_token *)
  to_json : string                      (* creds.to_json() *)
}.

(** [creds.valid]: a token is held and it has not expired. *)
Definition valid (c : Credentials) : bool :=
  bool_decide (is_Some (token c)) && negb (expired c).

(** The body sent to [events().insert]. *)
Record TimePoint : Type := mkTimePoint { dateTime : string; timeZone : string }.

Record CalendarEvent : Type := mkEvent {
  summary : string; description : string;
  ev_start : TimePoint; ev_end : TimePoint
}.

(** The event resource returned by the provider; [event.get(k)] is [None]
    when the key is missing. *)
Record EventResource : Type := mkResource {
  res_id : option string; res_htmlLink : option string
}.

Record Env : Type := mkEnv {
  (* datetime.date.today() *)
  today : date;
  (* datetime.datetime.fromisoformat(s) *)
  fromisoformat : string -> Outcome datetime;
  (* Credentials.from_authorized_user_file(path, SCOPES), from the contents *)
  from_authorized_user_file : string -> Outcome Credentials;
  (* creds.refresh(Request()): the credential after the in-place update *)
  refresh : Credentials -> Outcome Credentials;
  (* InstalledAppFlow.from_client_secrets_file("credentials.json", SCOPES),
     from the contents when the file exists *)
  from_client_secrets_file : option string -> Outcome unit;
  (* flow.run_local_server(port=0) *)
  run_local_server : Outcome Credentials;
  (* open(path, "w"): the error raised, if any *)
  open_w : string -> option Exn;
  (* build("calendar", "v3", credentials=creds) *)
  build : Credentials -> Outcome unit;
  (* service.events().insert(calendarId="primary", body=event).execute() *)
  events_insert : Credentials -> CalendarEvent -> Outcome EventResource
}.

(** ** The booking tools *)

(** The dict [{"status": ..., "confirmation_id": ...}]. *)
Record Booking : Type := mkBooking { status : string; confirmation_id : string }.

Definition book_flight (flight_id : string) : M Booking :=
  print (LF +:+ "TOOL USED: Booking flight with ID " +:+ flight_id +:+ "...") ;;;
  ret {| status := "success";
         confirmation_id := "CONF-" +:+ flight_id +:+ "-BKD" |}.

Definition book_hotel (hotel_id : string) : M Booking :=
  print (LF +:+ "TOOL USED: Booking hotel with ID " +:+ hotel_id +:+ "...") ;;;
  ret {| status := "success";
         confirmation_id := "CONF-" +:+ hotel_id +:+ "-BKD" |}.

(** ** The search tools *)

Record FlightOffer : Type := mkFlight {
  fl_id : string; fl_departure : string; fl_arrival : string;
  fl_price : float; fl_departure_time : string
}.

Record HotelOffer : Type := mkHotel {
  ho_id : string; ho_name : string; ho_price_per_night : float
}.

Definition flight_offers (destination start_date : string) : list FlightOffer :=
  [ mkFlight "FL123" "New York (JFK)" destination 450%float
      (start_date +:+ "T08:00:00");
    mkFlight "FL456" "New York (JFK)" destination 550%float
      (start_date +:+ "T11:00:00") ].

Definition search_flights (env : Env) (destination : string)
    (travel_dates : option string) : M (list FlightOffer) :=
  print (LF +:+ "TOOL USED: Searching for flights to " +:+ destination +:+ "...") ;;;
  default_date <- lift (date_add_days (today env) 28) ;;
  let start_date := strftime_Ymd default_date in
  start_date <-
    (if truthy travel_dates then
       try_except
         (parts <- lift (unpack2 (split " to " (default "" travel_dates))) ;;
          let '(start_date_str, end_date_str) := parts in
          parsed <- lift (fromisoformat env start_date_str) ;;
          let start_date := strftime_Ymd (dt_date parsed) in
          print ("Using parsed dates: Start - " +:+ start_date +:+
                 ", End - " +:+ end_date_str) ;;;
          ret start_date)
         is_ValueError
         (fun _ =>
            print "Could not parse date string, using default dates." ;;;
            ret start_date)
     else
       print "No travel dates provided, using default dates." ;;;
       ret start_date) ;;
  ret (flight_offers destination start_date).

Definition hotel_offers : list HotelOffer :=
  [ mkHotel "HOT789" "Grand Plaza Hotel" 250%float;
    mkHotel "HOT101" "City Center Inn" 180%float ].

Definition Google_Hotels (destination : string) (travel_dates : option string)
    : M (list HotelOffer) :=
  print (LF +:+ "TOOL USED: Searching for hotels in " +:+ destination +:+ "...") ;;;
  (if truthy travel_dates then
     try_except
       (parts <- lift (unpack2 (split " to " (default "" travel_dates))) ;;
        let '(start_date_str, end_date_str) := parts in
        print ("Using parsed dates for hotel search: Start - " +:+
               start_date_str +:+ ", End - " +:+ end_date_str))
       is_ValueError
       (fun _ =>
          print "Could not parse date string for hotels, proceeding without specific dates.")
   else
     print "No travel dates provided for hotel search.") ;;;
  ret hotel_offers.

(** ** The calendar tool *)

(** [with open(path, "w") as f: f.write(text)]. *)
Definition write_file (env : Env) (path text : string) : M unit :=
  fun w =>
    match open_w env path with
    | Some e => (Raised e, w)
    | None =>
        (Returned tt,
         {| stdout := stdout w; files := <[path := text]> (files w);
            calls := calls w; writes := writes w ++ [(path, text)] |})
    end.

(** [str(x)] of an [Optional[str]] inside an f-string. *)
Definition py_str (o : option string) : string := default "None" o.

(** The [else] branch: the interactive consent flow. *)
Definition consent_flow (env : Env) : M Credentials :=
  secrets <- read_path "credentials.json" ;;
  lift (from_client_secrets_file env secrets) ;;;
  record_call CallConsentFlow ;;;
  lift (run_local_server env).

(** The body of [if not creds or not creds.valid:]. *)
Definition renew_credentials (env : Env) (creds : option Credentials)
    : M Credentials :=
  creds <-
    match creds with
    | Some c =>
        if expired c && truthy (refresh_token c)
        then record_call CallRefresh ;;; lift (refresh env c)
        else consent_flow env
    | None => consent_flow env
    end ;;
  write_file env "token.json" (to_json creds) ;;;
  ret creds.

(** Lines 105-117: the credential in hand before the API call. *)
Definition obtain_credentials (env : Env) : M Credentials :=
  stored <- read_path "token.json" ;;
  creds <-
    match stored with
    | Some text => c <- lift (from_authorized_user_file env text) ;; ret (Some c)
    | None => ret None
    end ;;
  match creds with
  | Some c => if valid c then ret c else renew_credentials env creds
  | None => renew_credentials env creds
  end.

Definition calendar_event (title start_time end_time description : string)
    : CalendarEvent :=
  {| summary := title;
     description := description;
     ev_start := mkTimePoint start_time "America/New_York";
     ev_end := mkTimePoint end_time "America/New_York" |}.

(** Lines 119-131: the [try] block and its handler. *)
Definition insert_event (env : Env) (creds : Credentials)
    (title start_time end_time description : string) : M string :=
  try_except
    (lift (build env creds) ;;;
     let event := calendar_event title start_time end_time description in
     record_call CallInsertEvent ;;;
     event <- lift (events_insert env creds event) ;;
     print ("Event created: " +:+ py_str (res_htmlLink event)) ;;;
     ret ("Successfully created event with ID: " +:+ py_str (res_id event)))
    is_Exception
    (fun e => ret ("Error creating event: " +:+ exn_str e)).

Definition create_calendar_event (env : Env)
    (title start_time end_time description : string) : M string :=
  print (LF +:+ "TOOL USED: Creating Google Calendar event...") ;;;
  creds <- obtain_credentials env ;;
  insert_event env creds title start_time end_time description.

(** ** The tool list *)

(** A parameter of a tool's signature; [Optional[str] = None] is not
    required. *)
Record Param : Type := mkParam { param_name : string; param_required : bool }.

(** What a tool hands back to the loop. *)
Inductive ToolOutput : Type :=
  | FlightList (offers : list FlightOffer)
  | HotelList (offers : list HotelOffer)
  | BookingDict (b : Booking)
  | Text (s : string).

Definition map_M {A B} (f : A -> B) (m : M A) : M B := a <- m ;; ret (f a).

(** A function under [@tool]: the tool is named after the function, its
    schema is read off the signature, and a call binds keyword arguments
    ([None] when a required one is missing). *)
Record Tool : Type := mkTool {
  tool_name : string;
  tool_params : list Param;
  tool_func : Env -> gmap string string -> option (M ToolOutput)
}.

Definition search_flights_tool : Tool :=
  {| tool_name := "search_flights";
     tool_params := [mkParam "destination" true; mkParam "travel_dates" false];
     tool_func env args :=
       destination ← args !! "destination";
       Some (map_M FlightList
               (search_flights env destination (args !! "travel_dates"))) |}.

Definition book_flight_tool : Tool :=
  {| tool_name := "book_flight";
     tool_params := [mkParam "flight_id" true];
     tool_func _ args :=
       flight_id ← args !! "flight_id";
       Some (map_M BookingDict (book_flight flight_id)) |}.

Definition Google_Hotels_tool : Tool :=
  {| tool_name := "Google_Hotels";
     tool_params := [mkParam "destination" true; mkParam "travel_dates" false];
     tool_func _ args :=
       destination ← args !! "destination";
       Some (map_M HotelList
               (Google_Hotels destination (args !! "travel_dates"))) |}.

Definition book_hotel_tool : Tool :=
  {| tool_name := "book_hotel";
     tool_params := [mkParam "hotel_id" true];
     tool_func _ args :=
       hotel_id ← args !! "hotel_id";
       Some (map_M BookingDict (book_hotel hotel_id)) |}.

Definition create_calendar_event_tool : Tool :=
  {| tool_name := "create_calendar_event";
     tool_params := [mkParam "title" true; mkParam "start_time" true;
                     mkParam "end_time" true; mkParam "description" true];
     tool_func env args :=
       title ← args !! "title";
       start_time ← args !! "start_time";
       end_time ← args !! "end_time";
       description ← args !! "description";
       Some (map_M Text
               (create_calendar_event env title start_time end_time description)) |}.

Definition tools : list Tool :=
  [search_flights_tool; book_flight_tool; Google_Hotels_tool; book_hotel_tool;
   create_calendar_event_tool].

(** The tool registered under [name], if any. *)
Definition lookup_tool (name : string) : option Tool :=
  list_find (λ t, tool_name t = name) tools ≫= λ p, Some p.2.

(** ** The chat session ([app.py]) *)

(** A tool invocation asked for by the model. *)
Record ToolCallRequest : Type := mkRequest {
  req_tool : string; req_args : gmap string string
}.

(** The message classes of the chat framework.  An [AIMessage] may carry
    tool-call requests; a [ToolMessage] carries a tool's result. *)
Inductive Message : Type :=
  | HumanMessage (content : string)
  | AIMessage (content : string) (tool_calls : list ToolCallRequest)
  | ToolMessage (content : string).

(** [message.type]. *)
Definition message_type (m : Message) : string :=
  match m with
  | HumanMessage _ => "human"
  | AIMessage _ _ => "ai"
  | ToolMessage _ => "tool"
  end.

Definition message_content (m : Message) : string :=
  match m with
  | HumanMessage c | AIMessage c _ | ToolMessage c => c
  end.

(** The dict passed to [agent_executor.invoke]. *)
Record AgentInput : Type := mkAgentInput {
  input : string; chat_history : list Message
}.

(** The dict it returns, read at ['output']. *)
Record AgentResponse : Type := mkAgentResponse { output : string }.

(** [l[:-1]]. *)
Definition all_but_last {A} (l : list A) : list A := take (length l - 1) l.

Definition greeting : Message :=
  AIMessage "How can I help you plan your next trip?" [].

(** One run of the script, top to bottom. *)
Record ScriptRun (St : Type) : Type := mkScriptRun {
  messages_after : list Message;        (* st.session_state.messages *)
  rendered : list (string * list string); (* chat bubbles: role, markdown blocks *)
  invoked : option AgentInput;          (* the call to the agent, if made *)
  uncaught : option Exn;                (* the exception that ended the run *)
  agent_after : St
}.
Arguments mkScriptRun {St}.
Arguments messages_after {St}.
Arguments rendered {St}.
Arguments invoked {St}.
Arguments uncaught {St}.
Arguments agent_after {St}.

Section App.
(** The agent executor is the framework's: a call takes the agent (model,
    tools, outside world) from one state to the next and returns a
    response or raises. *)
Context {St : Type}.
Variable agent_executor_invoke : AgentInput -> St -> Outcome AgentResponse * St.

(** [session_state] is [None] while ["messages"] is not in
    [st.session_state]; [chat_input] is what [st.chat_input] returned. *)
Definition run_script (session_state : option (list Message))
    (chat_input : option string) (agent : St) : ScriptRun St :=
  let messages := default [greeting] session_state in
  let shown := (λ m, (message_type m, [message_content m])) <$> messages in
  if truthy chat_input then
    let prompt := default "" chat_input in
    let messages := messages ++ [HumanMessage prompt] in
    let shown := shown ++ [("user", [prompt])] in
    let request :=
      {| input := prompt; chat_history := all_but_last messages |} in
    match agent_executor_invoke request agent with
    | (Returned response, agent') =>
        let assistant_response := output response in
        {| messages_after := messages ++ [AIMessage assistant_response []];
           rendered := shown ++ [("assistant", [assistant_response])];
           invoked := Some request; uncaught := None;
           agent_after := agent' |}
    | (Raised e, agent') =>
        (* the assistant bubble is open, and empty, when invoke raises *)
        {| messages_after := messages; rendered := shown ++ [("assistant", [])];
           invoked := Some request; uncaught := Some e;
           agent_after := agent' |}
    end
  else
    {| messages_after := messages; rendered := shown;
       invoked := None; uncaught := None; agent_after := agent |}.

(** A session: the script is run once per interaction, the message list
    living on in the session state.  Returns the final transcript and the
    requests sent to the agent, oldest first. *)
Fixpoint run_session (session_state : option (list Message))
    (inputs : list (option string)) (agent : St)
    : list Message * list AgentInput :=
  match inputs with
  | [] => (default [greeting] session_state, [])
  | chat_input :: rest =>
      let r := run_script session_state chat_input agent in
      let '(final, sent) :=
        run_session (Some (messages_after r)) rest (agent_after r) in
      (final, option_list (invoked r) ++ sent)
  end.
End App.

(** A message of the transcript proper: a user input or an answer text,
    with no tool-call request and no tool result in it. *)
Definition plain_message (m : Message) : bool :=
  match m with
  | HumanMessage _ => true
  | AIMessage _ [] => true
  | _ => false
  end.

(** ** The planning loop *)

(** Modelled from the spec: a ToolResult (section 3), structured data or an
    error string. *)
Inductive ToolResult : Type :=
  | ToolData (o : ToolOutput)
  | ToolError (s : string).

(** Modelled from the spec: what the intent oracle returns (section 4.3),
    a FinalAnswer or one or more ToolCallRequests. *)
Inductive OracleReply : Type :=
  | FinalAnswer (text : string)
  | ToolCalls (requests : list ToolCallRequest).

(** Modelled from the spec: what the oracle is sent (history, new input,
    scratch context of this turn). *)
Record Context : Type := mkContext {
  ctx_history : list Message;
  ctx_input : string;
  ctx_scratch : list (ToolCallRequest * ToolResult)
}.

Definition is_final (r : OracleReply) : bool :=
  match r with
  | FinalAnswer _ => true
  | ToolCalls _ => false
  end.

(** Modelled from the spec: the arguments satisfy a tool's schema when they
    name every required parameter and nothing outside it. *)
Definition args_satisfy (params : list Param) (args : gmap string string) : bool :=
  forallb (λ p, negb (param_required p) || bool_decide (is_Some (args !! param_name p)))
          params
  && bool_decide (dom args ⊆ list_to_set (param_name <$> params)).

(** Modelled from the spec: the requested tool name exists in the tool list
    and the arguments satisfy its schema. *)
Definition valid_request (req : ToolCallRequest) : bool :=
  match lookup_tool (req_tool req) with
  | Some t => args_satisfy (tool_params t) (req_args req)
  | None => false
  end.

(** Modelled from the spec: the degraded final answer given when the
    iteration cap is exceeded. *)
Definition degraded_answer : string := "unable to complete".

(** Modelled from the spec: what a turn of the loop leaves behind. *)
Record LoopResult (St : Type) : Type := mkLoopResult {
  final_text : string;
  scratch : list (ToolCallRequest * ToolResult);
  replies : list OracleReply;           (* the oracle's replies, oldest first *)
  loop_state : St
}.
Arguments mkLoopResult {St}.
Arguments final_text {St}.
Arguments scratch {St}.
Arguments replies {St}.
Arguments loop_state {St}.

Section PlanningLoop.
Context {St : Type}.
(** The oracle's reply at the [i]-th question of a turn. *)
Variable oracle : nat -> Context -> OracleReply.
(** Running a validated request. *)
Variable invoke_tool : ToolCallRequest -> St -> ToolResult * St.
Variable max_iterations : nat.

(** Modelled from the spec: an invalid request is answered with a
    synthesized error and nothing is invoked. *)
Definition run_request (req : ToolCallRequest) (st : St) : ToolResult * St :=
  if valid_request req then invoke_tool req st
  else (ToolError (req_tool req +:+ " is not a valid tool call."), st).

(** Modelled from the spec: the requests of one reply, run in order. *)
Fixpoint run_requests (reqs : list ToolCallRequest) (st : St)
    : list (ToolCallRequest * ToolResult) * St :=
  match reqs with
  | [] => ([], st)
  | req :: rest =>
      let '(res, st') := run_request req st in
      let '(done, st'') := run_requests rest st' in
      ((req, res) :: done, st'')
  end.

(** Modelled from the spec: the Planning Loop of section 4.3 (the agent
    executor's loop is the framework's and not part of the repository).
    [budget] is what is left of the iteration cap, [i] the number of
    questions already asked in this turn. *)
Fixpoint planning_loop (budget i : nat) (history : list Message)
    (new_input : string) (scratch : list (ToolCallRequest * ToolResult))
    (asked : list OracleReply) (st : St) : LoopResult St :=
  match budget with
  | O => mkLoopResult degraded_answer scratch asked st
  | S budget' =>
      let reply := oracle i (mkContext history new_input scratch) in
      match reply with
      | FinalAnswer text => mkLoopResult text scratch (asked ++ [reply]) st
      | ToolCalls reqs =>
          let '(done, st') := run_requests reqs st in
          planning_loop budget' (S i) history new_input (scratch ++ done)
            (asked ++ [reply]) st'
      end
  end.

(** Modelled from the spec: a turn starts with an empty scratch context
    and the whole cap. *)
Definition plan_turn (history : list Message) (new_input : string) (st : St)
    : LoopResult St :=
  planning_loop max_iterations 0 history new_input [] [] st.

(** Every recorded reply is the oracle's answer to the question of that
    number, put with some scratch context of this turn. *)
Definition asked_of_oracle (history : list Message) (new_input : string)
    (asked : list OracleReply) : Prop :=
  forall j reply,
    asked !! j = Some reply ->
    exists scratch, reply = oracle j (mkContext history new_input scratch).
End PlanningLoop.

(** ** A concrete outside, for evaluation *)

Definition digit_val (c : ascii) : option Z := Z.of_nat <$> Ascii.is_nat c.

Definition number2 (a b : ascii) : option Z :=
  x ← digit_val a; y ← digit_val b; Some (10 * x + y).

(** The date written as [YYYY-MM-DD], when it is one. *)
Definition parse_iso_date (s : string) : option date :=
  match s with
  | String y1 (String y2 (String y3 (String y4 (String h1
      (String m1 (String m2 (String h2 (String d1 (String d2 EmptyString))))))))) =>
      if Ascii.eqb h1 "-" && Ascii.eqb h2 "-" then
        yh ← number2 y1 y2; yl ← number2 y3 y4;
        m ← number2 m1 m2; d ← number2 d1 d2;
        let r := mkDate (100 * yh + yl) m d in
        if valid_date r then Some r else None
      else None
  | _ => None
  end.

(** The calendar-date form [YYYY-MM-DD] of [datetime.fromisoformat], which
    every CPython version that has the function reads as that date at
    midnight; anything else is answered with [ValueError] here. *)
Definition fromisoformat_date (s : string) : Outcome datetime :=
  match parse_iso_date s with
  | Some r => Returned (mkDatetime r 0 0 0)
  | None => Raised (mkExn ValueError ("Invalid isoformat string: " +:+ s))
  end.

(** An outside in which the stored token loads as [stored], a refresh
    answers [refreshed], the consent flow answers [consented] and the
    calendar answers [inserted]; the clock reads 2025-01-01. *)
Definition outside (stored refreshed consented : Outcome Credentials)
    (inserted : Outcome EventResource) : Env :=
  {| today := mkDate 2025 1 1;
     fromisoformat := fromisoformat_date;
     from_authorized_user_file _ := stored;
     refresh _ := refreshed;
     from_client_secrets_file secrets :=
       match secrets with
       | Some _ => Returned tt
       | None =>
           Raised (mkExn FileNotFoundError
                     "[Errno 2] No such file or directory: 'credentials.json'")
       end;
     run_local_server := consented;
     open_w _ := None;
     build _ := Returned tt;
     events_insert _ _ := inserted |}.

Definition empty_world : World :=
  {| stdout := []; files := ∅; calls := []; writes := [] |}.

(** A world whose only file is [token.json]. *)
Definition world_with_token (text : string) : World :=
  {| stdout := []; files := {[ "token.json" := text ]}; calls := []; writes := [] |}.

Definition valid_creds : Credentials :=
  {| token := Some "ya29.live"; expired := false;
     refresh_token := Some "1//refresh"; to_json := "{live}" |}.

Definition expired_creds : Credentials :=
  {| token := Some "ya29.stale"; expired := true;
     refresh_token := Some "1//refresh"; to_json := "{stale}" |}.

Definition refreshed_creds : Credentials :=
  {| token := Some "ya29.fresh"; expired := false;
     refresh_token := Some "1//refresh"; to_json := "{fresh}" |}.

Definition created_event : EventResource :=
  {| res_id := Some "evt123";
     res_htmlLink := Some "https://calendar.example/evt123" |}.

Definition revoked : Exn :=
  mkExn RefreshError "invalid_grant: Token has been expired or revoked.".

Definition sample_outside : Env :=
  outside (Returned valid_creds) (Returned refreshed_creds)
    (Returned refreshed_creds) (Returned created_event).

(** An outside in which the stored token has expired and the provider
    grants the refresh. *)
Definition refreshing_outside : Env :=
  outside (Returned expired_creds) (Returned refreshed_creds)
    (Returned refreshed_creds) (Returned created_event).

(** The keyword arguments of a search call. *)
Definition search_args (destination : string) (travel_dates : option string)
    : gmap string string :=
  <["destination" := destination]>
    (match travel_dates with
     | Some s => {[ "travel_dates" := s ]}
     | None => ∅
     end).

(** ** The documented date format *)

Definition is_digit (c : ascii) : bool :=
  match digit_val c with
  | Some _ => true
  | None => false
  end.

(** The shape [YYYY-MM-DD]. *)
Definition iso_date_shape (s : string) : bool :=
  match s with
  | String y1 (String y2 (String y3 (String y4 (String h1
      (String m1 (String m2 (String h2 (String d1 (String d2 EmptyString))))))))) =>
      is_digit y1 && is_digit y2 && is_digit y3 && is_digit y4 &&
      Ascii.eqb h1 "-" && is_digit m1 && is_digit m2 &&
      Ascii.eqb h2 "-" && is_digit d1 && is_digit d2
  | _ => false
  end.

(** The format ['YYYY-MM-DD to YYYY-MM-DD'] of the tools' docstrings. *)
Definition travel_dates_format (s : string) : bool :=
  (String.length s =? 24)%nat &&
  iso_date_shape (String.substring 0 10 s) &&
  String.eqb (String.substring 10 4 s) " to " &&
  iso_date_shape (String.substring 14 10 s).

Fixpoint no_space (s : string) : bool :=
  match s with
  | EmptyString => true
  | String c s' => negb (Ascii.eqb c " ") && no_space s'
  end.

(** The start date that [search_flights] takes from [travel_dates]: the
    first of exactly two pieces around [" to "], when the date parser
    accepts it. *)
Definition accepted_start (env : Env) (travel_dates : option string) : option date :=
  if truthy travel_dates then
    match split " to " (default "" travel_dates) with
    | [start_date_str; _] =>
        match fromisoformat env start_date_str with
        | Returned parsed => Some (dt_date parsed)
        | Raised _ => None
        end
    | _ => None
    end
  else None.

(** ** The prompt ([agent_prompt]) *)

(** A message as the model is shown it: the system message of the template,
    or a message of the chat classes. *)
Inductive PromptMessage : Type :=
  | SystemMessage (content : string)
  | Chat (m : Message).

(** The system text, [{today}] filled in. *)
Definition system_text (today : string) : string :=
  "You are a helpful travel assistant. Your goal is to help the user book a flight and hotel,
            and then add the trip to their calendar.

            You have access to a conversation history with the user. Use this history to fill in any missing details in the user's latest request.
            For example, if the user already told you the destination is London, you must remember that.

            IMPORTANT: You must gather all necessary information (like destination AND dates for a flight search) from the user's request and the chat history before calling a tool.

            When you have completed all tasks, you must provide a final, comprehensive summary to the user.
            Today's date is " +:+ today +:+ ".".

(** [agent_prompt] formatted: the system message, the messages of
    [chat_history], the user message built from [{input}], the messages of
    [agent_scratchpad].  [.partial(today=datetime.date.today())] runs when
    the module is loaded, so [today] is the date read then; [str] of a date
    is its ISO form. *)
Definition agent_prompt (today_at_load : date) (chat_history : list Message)
    (input : string) (agent_scratchpad : list Message) : list PromptMessage :=
  SystemMessage (system_text (date_isoformat today_at_load))
  :: (Chat <$> chat_history) ++ [Chat (HumanMessage input)]
     ++ (Chat <$> agent_scratchpad).

(** The transcript takes turns: assistant at the even positions (the
    greeting first), user at the odd ones. *)
Definition alternating (l : list Message) : Prop :=
  forall i m,
    l !! i = Some m ->
    message_type m = if Nat.even i then "ai" else "human".

(** The agent executor returns on every call. *)
Definition never_raises {St : Type}
    (agent_executor_invoke : AgentInput -> St -> Outcome AgentResponse * St) : Prop :=
  forall request agent,
    exists response agent',
      agent_executor_invoke request agent = (Returned response, agent').

(** ** More concrete outsides *)

(** A world whose only file is [credentials.json]. *)
Definition world_with_secrets : World :=
  {| stdout := []; files := {[ "credentials.json" := "{client}" ]};
     calls := []; writes := [] |}.

(** An expired credential that cannot be refreshed. *)
Definition unrefreshable_creds : Credentials :=
  {| token := Some "ya29.stale"; expired := true;
     refresh_token := None; to_json := "{stale, no refresh}" |}.

Definition quota_exceeded : Exn := mkExn HttpError "<HttpError 403: quota exceeded>".

(** An outside whose calendar rejects the insert. *)
Definition rejecting_outside : Env :=
  outside (Returned valid_creds) (Returned refreshed_creds)
    (Returned refreshed_creds) (Raised quota_exceeded).

(** An outside whose stored token cannot be refreshed. *)
Definition unrefreshable_outside : Env :=
  outside (Returned unrefreshable_creds) (Returned refreshed_creds)
    (Returned refreshed_creds) (Returned created_event).

(** An agent that always answers the same text. *)
Definition echo_agent (text : string) (request : AgentInput) (a : unit)
    : Outcome AgentResponse * unit :=
  (Returned (mkAgentResponse text), a).

(** An agent that always fails. *)
Definition failing_agent (e : Exn) (request : AgentInput) (a : unit)
    : Outcome AgentResponse * unit :=
  (Raised e, a).

(** ** Strings: splitting around the separator *)

Lemma append_cons (x : ascii) (a b : string) :
  String x a +:+ b = String x (a +:+ b).
Proof. reflexivity. Qed.

Lemma append_assoc (a b c : string) : (a +:+ b) +:+ c = a +:+ (b +:+ c).
Proof.
  induction a as [|x a IH]; [reflexivity|].
  by rewrite !append_cons, IH.
Qed.

Lemma append_empty_r (a : string) : a +:+ "" = a.
Proof.
  induction a as [|x a IH]; [reflexivity|]. by rewrite append_cons, IH.
Qed.

Lemma prefix_to_not_space (c : ascii) (s : string) :
  Ascii.eqb c " " = false -> String.prefix " to " (String c s) = false.
Proof.
  intros Hc. cbn [String.prefix].
  destruct (ascii_dec " " c) as [<-|_]; [discriminate|reflexivity].
Qed.

Lemma prefix_to_here (b : string) : String.prefix " to " (" to " +:+ b) = true.
Proof. destruct b; reflexivity. Qed.

Lemma split_from_no_space (s cur : string) :
  no_space s = true -> split_from " to " s 0 cur = [cur +:+ s].
Proof.
  revert cur. induction s as [|c s IH]; intros cur Hs.
  - cbn [split_from]. by rewrite append_empty_r.
  - cbn [no_space] in Hs. apply andb_prop in Hs as [Hc Hs].
    apply negb_true_iff in Hc.
    cbn [split_from]. rewrite (prefix_to_not_space c s Hc).
    rewrite (IH _ Hs), append_assoc. reflexivity.
Qed.

Lemma split_from_around (a b cur : string) :
  no_space a = true -> no_space b = true ->
  split_from " to " (a +:+ " to " +:+ b) 0 cur = [cur +:+ a; b].
Proof.
  revert cur. induction a as [|c a IH]; intros cur Ha Hb.
  - rewrite append_empty_r.
    change ("" +:+ " to " +:+ b) with (String " " ("to " +:+ b)).
    cbn [split_from]. change (String " " ("to " +:+ b)) with (" to " +:+ b).
    rewrite prefix_to_here.
    change (cur :: split_from " to " b 0 "" = [cur; b]).
    by rewrite (split_from_no_space b "" Hb).
  - cbn [no_space] in Ha. apply andb_prop in Ha as [Hc Ha].
    apply negb_true_iff in Hc.
    rewrite append_cons. cbn [split_from]. rewrite (prefix_to_not_space c _ Hc).
    rewrite (IH _ Ha Hb), append_assoc. reflexivity.
Qed.

Lemma split_around (a b : string) :
  no_space a = true -> no_space b = true ->
  split " to " (a +:+ " to " +:+ b) = [a; b].
Proof. intros Ha Hb. unfold split. by rewrite split_from_around. Qed.

Lemma digit_not_space (c : ascii) : is_digit c = true -> Ascii.eqb c " " = false.
Proof.
  destruct c as [[] [] [] [] [] [] [] []]; try reflexivity; discriminate.
Qed.

Lemma hyphen_not_space (c : ascii) : Ascii.eqb c "-" = true -> Ascii.eqb c " " = false.
Proof. intros H. apply Ascii.eqb_eq in H as ->. reflexivity. Qed.

Lemma iso_date_shape_no_space (s : string) :
  iso_date_shape s = true -> no_space s = true.
Proof.
  destruct s as [|c1 [|c2 [|c3 [|c4 [|c5 [|c6 [|c7 [|c8 [|c9 [|c10 [|c11 s]]]]]]]]]]];
    try discriminate.
  cbn [iso_date_shape no_space]. intros H.
  repeat (apply andb_prop in H as [H ?]).
  repeat (apply andb_true_intro; split); try reflexivity;
    apply negb_true_iff; auto using digit_not_space, hyphen_not_space.
Qed.

(** ** The booking tools *)

(** C3: for every ID [x], [book_flight x] and [book_hotel x] return
    [{status: "success", confirmation_id: "CONF-" + x + "-BKD"}], whatever
    the state of the world: the confirmation ID depends on [x] alone and the
    call never raises. *)
Theorem book_confirmation_deterministic (x : string) (w : World) :
  outcome_of (book_flight x) w
    = Returned {| status := "success"; confirmation_id := "CONF-" +:+ x +:+ "-BKD" |}
  /\ outcome_of (book_hotel x) w
    = Returned {| status := "success"; confirmation_id := "CONF-" +:+ x +:+ "-BKD" |}.
Proof. split; reflexivity. Qed.

(** ** The search tools *)

Ltac run_tool :=
  unfold outcome_of, world_after, bind, print, lift, try_except, ret; cbn.

Lemma str_truthy_around (a b : string) : str_truthy (a +:+ " to " +:+ b) = true.
Proof. destruct a; reflexivity. Qed.

Lemma unpack2_raises_ValueError (parts : list string) (e : Exn) :
  unpack2 parts = Raised e -> is_ValueError e = true.
Proof.
  destruct parts as [|a [|b [|c parts]]]; cbn; intros H; inversion H; reflexivity.
Qed.

Lemma Google_Hotels_returns (destination : string) (travel_dates : option string)
    (w : World) :
  outcome_of (Google_Hotels destination travel_dates) w = Returned hotel_offers.
Proof.
  unfold Google_Hotels. run_tool.
  destruct (truthy travel_dates); [|reflexivity].
  destruct (unpack2 _) as [[a b]|e] eqn:Hparts; [reflexivity|].
  by rewrite (unpack2_raises_ValueError _ _ Hparts).
Qed.

(** The start date used by [search_flights] is the accepted one, or else the
    default. *)
Lemma search_flights_start (env : Env) (destination : string)
    (travel_dates : option string) (w : World) (d0 : date) :
  (forall s e, fromisoformat env s = Raised e -> is_ValueError e = true) ->
  date_add_days (today env) 28 = Returned d0 ->
  outcome_of (search_flights env destination travel_dates) w
    = Returned (flight_offers destination
                  (strftime_Ymd (default d0 (accepted_start env travel_dates)))).
Proof.
  intros Hlib Hd0. unfold search_flights, accepted_start. run_tool.
  rewrite Hd0. cbn.
  destruct (truthy travel_dates); [|reflexivity].
  destruct (split " to " (default "" travel_dates)) as [|a [|b [|c parts]]];
    cbn; try reflexivity.
  destruct (fromisoformat env a) as [parsed|e] eqn:Hparse; cbn; [reflexivity|].
  rewrite (Hlib _ _ Hparse). reflexivity.
Qed.

(** ** Printing and reading dates *)

Lemma digit_val_digit (c : ascii) (x : Z) :
  digit_val c = Some x -> 0 <= x <= 9 /\ digit x = c.
Proof.
  destruct c as [[] [] [] [] [] [] [] []]; cbn; intros H; inversion H;
    split; (lia || reflexivity).
Qed.

Lemma digit_mod (x y : Z) : x mod 10 = y mod 10 -> digit x = digit y.
Proof. unfold digit. by intros ->. Qed.

Lemma number2_pad2 (a b : ascii) (n : Z) :
  number2 a b = Some n -> 0 <= n < 100 /\ pad2 n = String a (String b EmptyString).
Proof.
  unfold number2.
  destruct (digit_val a) as [x|] eqn:Ha; [|discriminate].
  destruct (digit_val b) as [y|] eqn:Hb; [|discriminate].
  cbn. intros H. inversion H; subst n. clear H.
  apply digit_val_digit in Ha as [Hx <-], Hb as [Hy <-].
  split; [lia|]. unfold pad2. f_equal; [|f_equal].
  - f_equal. symmetry. apply Z.div_unique with y; lia.
  - apply digit_mod. rewrite Z.add_comm, Z.mul_comm. apply Z.mod_add. lia.
Qed.

Lemma pad4_pad2 (hi lo : Z) :
  0 <= hi -> 0 <= lo < 100 -> pad4 (100 * hi + lo) = pad2 hi +:+ pad2 lo.
Proof.
  intros Hhi Hlo. unfold pad4, pad2. cbn.
  assert ((100 * hi + lo) / 100 = hi) as H100
    by (Z.to_euclidean_division_equations; lia).
  assert ((100 * hi + lo) / 10 = 10 * hi + lo / 10) as H10
    by (Z.to_euclidean_division_equations; lia).
  assert ((100 * hi + lo) / 1000 = hi / 10) as H1000
    by (Z.to_euclidean_division_equations; lia).
  rewrite H1000, H100, H10, !append_cons.
  change ("" +:+ ?t) with t.
  rewrite (digit_mod (10 * hi + lo / 10) (lo / 10)),
    (digit_mod (100 * hi + lo) lo); [reflexivity|..].
  - replace (100 * hi + lo) with (lo + (10 * hi) * 10) by lia.
    apply Z.mod_add. lia.
  - rewrite Z.add_comm, Z.mul_comm. apply Z.mod_add. lia.
Qed.

Lemma is_digit_digit (n : Z) : is_digit (digit n) = true.
Proof.
  unfold digit. pose proof (Z.mod_pos_bound n 10 ltac:(lia)) as Hmod.
  assert (Z.to_nat (n mod 10) < 10)%nat as Hk by lia.
  destruct (Z.to_nat (n mod 10)) as [|k]; [reflexivity|].
  do 9 (destruct k as [|k]; [reflexivity|]). lia.
Qed.

(** [str(d)] has the shape [YYYY-MM-DD]. *)
Lemma date_isoformat_shape (d : date) : iso_date_shape (date_isoformat d) = true.
Proof.
  cbv [date_isoformat pad4 pad2 String.append].
  cbn [iso_date_shape]. by rewrite !is_digit_digit.
Qed.

(** From the year 1000 on, [strftime("%Y-%m-%d")] and [str] agree. *)
Lemma strftime_Ymd_four_digit (d : date) :
  1000 <= year d -> strftime_Ymd d = date_isoformat d.
Proof.
  intros Hyear. unfold strftime_Ymd, date_isoformat, year_decimal.
  destruct (year d <? 10) eqn:H1; [apply Z.ltb_lt in H1; lia|].
  destruct (year d <? 100) eqn:H2; [apply Z.ltb_lt in H2; lia|].
  destruct (year d <? 1000) eqn:H3; [apply Z.ltb_lt in H3; lia|].
  reflexivity.
Qed.

Lemma strftime_Ymd_shape (d : date) :
  1000 <= year d -> iso_date_shape (strftime_Ymd d) = true.
Proof.
  intros Hyear. rewrite strftime_Ymd_four_digit by assumption.
  apply date_isoformat_shape.
Qed.

(** Before the year 1000 [strftime("%Y-%m-%d")] prints fewer than ten
    characters: the year is not padded. *)
Lemma strftime_Ymd_early_year (d : date) :
  year d < 1000 -> (String.length (strftime_Ymd d) < 10)%nat.
Proof.
  intros Hyear. unfold strftime_Ymd, year_decimal.
  destruct (year d <? 10); [cbv [pad2 String.append String.length]; lia|].
  destruct (year d <? 100); [cbv [pad2 String.append String.length]; lia|].
  destruct (year d <? 1000) eqn:H3; [|apply Z.ltb_ge in H3; lia].
  cbv [pad2 String.append String.length]. lia.
Qed.

(** The concrete parser and [str] agree: a date it accepts is printed back
    as the very string that was read. *)
Lemma parse_iso_date_isoformat (s : string) (d : date) :
  parse_iso_date s = Some d -> date_isoformat d = s.
Proof.
  destruct s as [|y1 [|y2 [|y3 [|y4 [|h1 [|m1 [|m2 [|h2 [|d1 [|d2 [|c s]]]]]]]]]]];
    try discriminate.
  cbn [parse_iso_date].
  destruct (Ascii.eqb_spec h1 "-") as [->|]; [|discriminate].
  destruct (Ascii.eqb_spec h2 "-") as [->|]; [|discriminate].
  cbn [andb].
  destruct (number2 y1 y2) as [yh|] eqn:Hyh; [|discriminate].
  destruct (number2 y3 y4) as [yl|] eqn:Hyl; [|discriminate].
  destruct (number2 m1 m2) as [m|] eqn:Hm; [|discriminate].
  destruct (number2 d1 d2) as [dd|] eqn:Hd; [|discriminate].
  cbn. destruct (valid_date _); [|discriminate].
  intros H. inversion H; subst d. clear H.
  apply number2_pad2 in Hyh as [Hyh Pyh], Hyl as [Hyl Pyl],
    Hm as [_ Pm], Hd as [_ Pd].
  unfold date_isoformat. cbn [year month day].
  rewrite pad4_pad2 by lia. rewrite Pyh, Pyl, Pm, Pd. reflexivity.
Qed.

(** So does [strftime("%Y-%m-%d")], from the year 1000 on. *)
Lemma parse_iso_date_strftime (s : string) (d : date) :
  parse_iso_date s = Some d -> 1000 <= year d -> strftime_Ymd d = s.
Proof.
  intros Hparse Hyear. rewrite strftime_Ymd_four_digit by assumption.
  by apply parse_iso_date_isoformat.
Qed.

(** What the parser accepts has the documented shape. *)
Lemma parse_iso_date_shape (s : string) (d : date) :
  parse_iso_date s = Some d -> iso_date_shape s = true.
Proof.
  intros Hparse. rewrite <- (parse_iso_date_isoformat s d Hparse).
  apply date_isoformat_shape.
Qed.

Lemma fromisoformat_date_prints_back (s : string) (parsed : datetime) :
  fromisoformat_date s = Returned parsed ->
  1000 <= year (dt_date parsed) ->
  strftime_Ymd (dt_date parsed) = s.
Proof.
  unfold fromisoformat_date.
  destruct (parse_iso_date s) as [d|] eqn:Hparse; intros H; inversion H.
  by apply parse_iso_date_strftime.
Qed.

(** C4: for every destination and every ['S to E'] in the documented
    format whose start [S] is a valid ISO date, read as such by the date
    parser, [search_flights] returns exactly two offers, priced 450.00 and
    550.00, each arriving at the destination and leaving on the parsed start
    date, at 08:00 and at 11:00; from the year 1000 on the departure times
    are [S] itself followed by ["T08:00:00"] and ["T11:00:00"]. *)
Theorem search_flights_well_formed (env : Env) (destination S E : string)
    (w : World) (d0 d : date) (parsed : datetime) :
  date_add_days (today env) 28 = Returned d0 ->
  parse_iso_date S = Some d ->
  iso_date_shape E = true ->
  fromisoformat env S = Returned parsed ->
  dt_date parsed = d ->
  outcome_of (search_flights env destination (Some (S +:+ " to " +:+ E))) w
    = Returned
        [ {| fl_id := "FL123"; fl_departure := "New York (JFK)";
             fl_arrival := destination; fl_price := 450%float;
             fl_departure_time := strftime_Ymd d +:+ "T08:00:00" |};
          {| fl_id := "FL456"; fl_departure := "New York (JFK)";
             fl_arrival := destination; fl_price := 550%float;
             fl_departure_time := strftime_Ymd d +:+ "T11:00:00" |} ]
  /\ (1000 <= year d ->
      outcome_of (search_flights env destination (Some (S +:+ " to " +:+ E))) w
        = Returned
            [ {| fl_id := "FL123"; fl_departure := "New York (JFK)";
                 fl_arrival := destination; fl_price := 450%float;
                 fl_departure_time := S +:+ "T08:00:00" |};
              {| fl_id := "FL456"; fl_departure := "New York (JFK)";
                 fl_arrival := destination; fl_price := 550%float;
                 fl_departure_time := S +:+ "T11:00:00" |} ]).
Proof.
  intros Hd0 HS HE Hparse Hdate.
  assert (outcome_of (search_flights env destination (Some (S +:+ " to " +:+ E))) w
          = Returned (flight_offers destination (strftime_Ymd d))) as Hrun.
  { unfold search_flights. run_tool.
    rewrite Hd0. cbn. rewrite str_truthy_around.
    fold (split " to " (S +:+ " to " +:+ E)).
    rewrite (split_around S E
               (iso_date_shape_no_space S (parse_iso_date_shape S d HS))
               (iso_date_shape_no_space E HE)).
    cbn. rewrite Hparse. cbn. by rewrite Hdate. }
  split; [exact Hrun|].
  intros Hyear. rewrite Hrun. unfold flight_offers.
  by rewrite (parse_iso_date_strftime S d HS Hyear).
Qed.

Lemma search_flights_well_formed_witness :
  outcome_of (search_flights sample_outside "Paris"
                (Some ("2025-06-01" +:+ " to " +:+ "2025-06-10"))) empty_world
    = Returned
        [ {| fl_id := "FL123"; fl_departure := "New York (JFK)";
             fl_arrival := "Paris"; fl_price := 450%float;
             fl_departure_time := "2025-06-01" +:+ "T08:00:00" |};
          {| fl_id := "FL456"; fl_departure := "New York (JFK)";
             fl_arrival := "Paris"; fl_price := 550%float;
             fl_departure_time := "2025-06-01" +:+ "T11:00:00" |} ].
Proof.
  apply (search_flights_well_formed sample_outside "Paris" "2025-06-01"
           "2025-06-10" empty_world (mkDate 2025 1 29) (mkDate 2025 6 1)
           (mkDatetime (mkDate 2025 6 1) 0 0 0));
    (reflexivity || (cbn; lia)).
Defined.

Lemma fromisoformat_date_raises_ValueError (s : string) (e : Exn) :
  fromisoformat_date s = Raised e -> is_ValueError e = true.
Proof.
  unfold fromisoformat_date. destruct (parse_iso_date s); intros H; inversion H.
  reflexivity.
Qed.

(** C2, as amended: given a date parser that raises nothing but
    [ValueError] and a clock for which today + 28 days is a date,
    [search_flights] and the hotel search return their two offers for every
    [travel_dates], absent, well-formed or malformed, and never raise.
    [search_flights] stamps the offers with the default start date (today +
    28 days) whenever [travel_dates] is absent or empty, does not split into
    exactly two pieces around [" to "], or has a first piece that the date
    parser rejects; otherwise with the parsed first piece. *)
Theorem search_tools_never_raise (env : Env) (destination : string)
    (travel_dates : option string) (w : World) (d0 : date) :
  (forall s e, fromisoformat env s = Raised e -> is_ValueError e = true) ->
  date_add_days (today env) 28 = Returned d0 ->
  outcome_of (search_flights env destination travel_dates) w
    = Returned (flight_offers destination
                  (strftime_Ymd (default d0 (accepted_start env travel_dates))))
  /\ outcome_of (Google_Hotels destination travel_dates) w = Returned hotel_offers.
Proof.
  intros Hlib Hd0. split.
  - by apply search_flights_start.
  - apply Google_Hotels_returns.
Qed.

Lemma search_tools_never_raise_witness :
  outcome_of (search_flights sample_outside "Paris" (Some "next week")) empty_world
    = Returned (flight_offers "Paris"
                  (strftime_Ymd (default (mkDate 2025 1 29)
                       (accepted_start sample_outside (Some "next week")))))
  /\ outcome_of (Google_Hotels "Paris" (Some "next week")) empty_world
    = Returned hotel_offers.
Proof.
  apply (search_tools_never_raise sample_outside "Paris" (Some "next week")
           empty_world (mkDate 2025 1 29)).
  - apply fromisoformat_date_raises_ValueError.
  - reflexivity.
Defined.

(** C2, as first stated, fails: a string outside the documented format
    whose first piece is a date, here ["2025-06-01 to garbage"], is not
    answered with the default start date (2025-01-29 on 2025-01-01) but
    with the parsed one. *)
Lemma malformed_end_keeps_parsed_start :
  ~ (forall (env : Env) (destination travel_dates : string) (w : World) (d0 : date),
       (forall s e, fromisoformat env s = Raised e -> is_ValueError e = true) ->
       date_add_days (today env) 28 = Returned d0 ->
       travel_dates_format travel_dates = false ->
       outcome_of (search_flights env destination (Some travel_dates)) w
         = Returned (flight_offers destination (strftime_Ymd d0))).
Proof.
  intros H.
  specialize (H sample_outside "Paris" "2025-06-01 to garbage" empty_world
                (mkDate 2025 1 29) fromisoformat_date_raises_ValueError
                eq_refl eq_refl).
  vm_compute in H. discriminate H.
Qed.

(** ** The calendar tool *)

Lemma count_snoc (c c' : Call) (l : list Call) :
  length (filter (λ x, x = c) (l ++ [c']))
    = (length (filter (λ x, x = c) l) + (if decide (c' = c) then 1 else 0))%nat.
Proof.
  rewrite filter_app, length_app. f_equal.
  rewrite filter_cons. case_decide; reflexivity.
Qed.

Lemma count_snoc_same (c : Call) (l : list Call) :
  length (filter (λ x, x = c) (l ++ [c])) = S (length (filter (λ x, x = c) l)).
Proof. rewrite count_snoc. case_decide; [lia|congruence]. Qed.

Lemma count_snoc_other (c c' : Call) (l : list Call) :
  c' <> c ->
  length (filter (λ x, x = c) (l ++ [c'])) = length (filter (λ x, x = c) l).
Proof. intros Hne. rewrite count_snoc. case_decide; [congruence|lia]. Qed.

Ltac count_calls :=
  unfold calls_of; cbn;
  rewrite ?count_snoc_same, ?count_snoc_other by discriminate.

Ltac run_calendar :=
  unfold create_calendar_event, obtain_credentials, renew_credentials,
    consent_flow, insert_event, write_file, read_path, record_call,
    outcome_of, world_after, calls_of, bind, print, lift, try_except, ret;
  cbn.

(** The [try] block leaves files alone, makes no OAuth call and turns every
    [Exception] into an error string. *)
Lemma insert_event_frame (env : Env) (c : Credentials)
    (title start_time end_time description : string) (w : World) :
  let w' := world_after (insert_event env c title start_time end_time description) w in
  files w' = files w /\ writes w' = writes w
  /\ calls_of CallRefresh w' = calls_of CallRefresh w
  /\ calls_of CallConsentFlow w' = calls_of CallConsentFlow w.
Proof.
  run_calendar.
  destruct (build env c) as [[]|e]; cbn.
  - destruct (events_insert env c _) as [r|e]; cbn;
      [|destruct (is_Exception e)]; count_calls; auto.
  - destruct (is_Exception e); cbn; auto.
Qed.

(** The world once the tool has announced itself. *)
Lemma create_calendar_event_steps (env : Env)
    (title start_time end_time description : string) (w : World) :
  create_calendar_event env title start_time end_time description w
    = match obtain_credentials env
              (world_after (print (LF +:+ "TOOL USED: Creating Google Calendar event...")) w)
      with
      | (Returned c, w1) =>
          insert_event env c title start_time end_time description w1
      | (Raised e, w1) => (Raised e, w1)
      end.
Proof. reflexivity. Qed.

Lemma obtain_stored_valid (env : Env) (w : World) (text : string) (c : Credentials) :
  files w !! "token.json" = Some text ->
  from_authorized_user_file env text = Returned c ->
  valid c = true ->
  obtain_credentials env w = (Returned c, w).
Proof.
  intros Hstored Hload Hvalid. run_calendar.
  rewrite Hstored, Hload. cbn. by rewrite Hvalid.
Qed.

Lemma expired_not_valid (c : Credentials) : expired c = true -> valid c = false.
Proof. unfold valid. intros ->. apply andb_false_r. Qed.

Lemma obtain_stored_expired (env : Env) (w : World) (text : string) (c : Credentials) :
  files w !! "token.json" = Some text ->
  from_authorized_user_file env text = Returned c ->
  expired c = true ->
  truthy (refresh_token c) = true ->
  obtain_credentials env w
    = let w1 := {| stdout := stdout w; files := files w;
                   calls := calls w ++ [CallRefresh]; writes := writes w |} in
      match refresh env c with
      | Returned c' =>
          match open_w env "token.json" with
          | None =>
              (Returned c',
               {| stdout := stdout w;
                  files := <["token.json" := to_json c']> (files w);
                  calls := calls w ++ [CallRefresh];
                  writes := writes w ++ [("token.json", to_json c')] |})
          | Some e => (Raised e, w1)
          end
      | Raised e => (Raised e, w1)
      end.
Proof.
  intros Hstored Hload Hexpired Htoken. run_calendar.
  rewrite Hstored, Hload. cbn.
  rewrite (expired_not_valid c Hexpired), Hexpired, Htoken. cbn.
  destruct (refresh env c) as [c'|e]; [|reflexivity].
  destruct (open_w env "token.json"); reflexivity.
Qed.

(** Where [token.json] is written, a refresh or a consent flow has just
    returned the credential that is written. *)
Lemma obtain_credentials_writes (env : Env) (w : World) :
  let w1 := world_after (obtain_credentials env) w in
  (files w1 = files w /\ writes w1 = writes w)
  \/ exists c',
       outcome_of (obtain_credentials env) w = Returned c'
       /\ files w1 = <["token.json" := to_json c']> (files w)
       /\ writes w1 = writes w ++ [("token.json", to_json c')]
       /\ ((exists text c,
              files w !! "token.json" = Some text
              /\ from_authorized_user_file env text = Returned c
              /\ refresh env c = Returned c'
              /\ calls w1 = calls w ++ [CallRefresh])
           \/ (run_local_server env = Returned c'
               /\ calls w1 = calls w ++ [CallConsentFlow])).
Proof.
  run_calendar.
  destruct (files w !! "token.json") as [text|] eqn:Hstored; cbn.
  - destruct (from_authorized_user_file env text) as [c|e] eqn:Hload; cbn;
      [|by left].
    destruct (valid c); cbn; [by left|].
    destruct (expired c && truthy (refresh_token c)); cbn.
    + destruct (refresh env c) as [c'|e] eqn:Hrefresh; cbn; [|by left].
      destruct (open_w env "token.json"); cbn; [by left|].
      right. exists c'. repeat split. left. by exists text, c.
    + destruct (from_client_secrets_file env _) as [[]|e]; cbn; [|by left].
      destruct (run_local_server env) as [c'|e] eqn:Hflow; cbn; [|by left].
      destruct (open_w env "token.json"); cbn; [by left|].
      right. exists c'. repeat split. by right.
  - destruct (from_client_secrets_file env _) as [[]|e]; cbn; [|by left].
    destruct (run_local_server env) as [c'|e] eqn:Hflow; cbn; [|by left].
    destruct (open_w env "token.json"); cbn; [by left|].
    right. exists c'. repeat split. by right.
Qed.

(** C1 does not hold of the code: the credential handling sits before the
    [try], so a failure there leaves the tool as an exception.  With an
    expired stored token whose refresh the provider rejects, the call raises
    [RefreshError] instead of returning an error string. *)
Theorem refresh_failure_escapes :
  outcome_of
    (create_calendar_event
       (outside (Returned expired_creds) (Raised revoked)
          (Returned refreshed_creds) (Returned created_event))
       "Trip to Paris" "2025-06-01T08:00:00" "2025-06-01T11:00:00" "Flight FL123")
    (world_with_token "{stale}")
  = Raised revoked.
Proof. vm_compute. reflexivity. Qed.

(** What the [try] does catch: once a credential is in hand, every
    [Exception] raised by the API client comes back as an error string. *)
Lemma insert_event_returns (env : Env) (c : Credentials)
    (title start_time end_time description : string) (w : World) :
  (forall e, build env c = Raised e -> is_Exception e = true) ->
  (forall ev e, events_insert env c ev = Raised e -> is_Exception e = true) ->
  exists s,
    outcome_of (insert_event env c title start_time end_time description) w
      = Returned s.
Proof.
  intros Hbuild Hinsert. run_calendar.
  destruct (build env c) as [[]|e] eqn:Hb; cbn.
  - destruct (events_insert env c _) as [r|e] eqn:Hi; cbn; [by eexists|].
    rewrite (Hinsert _ _ Hi). by eexists.
  - rewrite (Hbuild _ eq_refl). by eexists.
Qed.

(** C8: with a stored credential that loads, (1) if it is valid no consent
    flow is started, and (2) if it is expired and has a refresh token,
    exactly one refresh call is made, no consent flow is started, and once
    the refresh has returned the refreshed credential is what [token.json]
    holds (the file being writable). *)
Theorem stored_credential_paths (env : Env)
    (title start_time end_time description : string) (w : World)
    (text : string) (c : Credentials) :
  files w !! "token.json" = Some text ->
  from_authorized_user_file env text = Returned c ->
  let w' :=
    world_after (create_calendar_event env title start_time end_time description) w in
  (valid c = true ->
     calls_of CallConsentFlow w' = calls_of CallConsentFlow w)
  /\ (expired c = true -> truthy (refresh_token c) = true ->
        calls_of CallRefresh w' = S (calls_of CallRefresh w)
        /\ calls_of CallConsentFlow w' = calls_of CallConsentFlow w
        /\ forall c', refresh env c = Returned c' ->
             open_w env "token.json" = None ->
             files w' !! "token.json" = Some (to_json c')
             /\ writes w' = writes w ++ [("token.json", to_json c')]).
Proof.
  intros Hstored Hload w'. subst w'. unfold world_after at 1 2 3 4 5.
  rewrite create_calendar_event_steps.
  set (w0 := world_after (print _) w).
  assert (files w0 !! "token.json" = Some text) as Hstored0 by exact Hstored.
  split.
  - intros Hvalid. rewrite (obtain_stored_valid env w0 text c Hstored0 Hload Hvalid).
    pose proof (insert_event_frame env c title start_time end_time description w0)
      as (_ & _ & _ & Hflow).
    exact Hflow.
  - intros Hexpired Htoken.
    rewrite (obtain_stored_expired env w0 text c Hstored0 Hload Hexpired Htoken).
    cbn zeta.
    destruct (refresh env c) as [c1|e] eqn:Hrefresh.
    + destruct (open_w env "token.json") as [e|] eqn:Hopen.
      * count_calls. do 2 (split; [reflexivity|]). discriminate.
      * match goal with
        | |- context [insert_event env c1 _ _ _ _ ?w1] =>
            pose proof (insert_event_frame env c1 title start_time end_time
                          description w1) as (Hf & Hw & Hr & Hc)
        end.
        unfold world_after in Hf, Hw, Hr, Hc.
        rewrite Hr, Hc, Hf, Hw. count_calls.
        do 2 (split; [reflexivity|]).
        intros c' Hc' _. inversion Hc'; subst c'. split.
        -- apply lookup_insert_eq.
        -- reflexivity.
    + count_calls. do 2 (split; [reflexivity|]). discriminate.
Qed.

Lemma stored_credential_paths_witness :
  calls_of CallConsentFlow
    (world_after
       (create_calendar_event sample_outside "Trip to Paris" "2025-06-01T08:00:00"
          "2025-06-01T11:00:00" "Flight FL123")
       (world_with_token "{live}"))
    = calls_of CallConsentFlow (world_with_token "{live}")
  /\ calls_of CallRefresh
       (world_after
          (create_calendar_event refreshing_outside "Trip to Paris"
             "2025-06-01T08:00:00" "2025-06-01T11:00:00" "Flight FL123")
          (world_with_token "{stale}"))
     = S (calls_of CallRefresh (world_with_token "{stale}"))
  /\ files
       (world_after
          (create_calendar_event refreshing_outside "Trip to Paris"
             "2025-06-01T08:00:00" "2025-06-01T11:00:00" "Flight FL123")
          (world_with_token "{stale}")) !! "token.json"
     = Some (to_json refreshed_creds).
Proof.
  split.
  - exact (proj1 (stored_credential_paths sample_outside "Trip to Paris"
                    "2025-06-01T08:00:00" "2025-06-01T11:00:00" "Flight FL123"
                    (world_with_token "{live}") "{live}" valid_creds
                    eq_refl eq_refl) eq_refl).
  - pose proof (proj2 (stored_credential_paths refreshing_outside "Trip to Paris"
                         "2025-06-01T08:00:00" "2025-06-01T11:00:00" "Flight FL123"
                         (world_with_token "{stale}") "{stale}" expired_creds
                         eq_refl eq_refl) eq_refl eq_refl) as (Hone & _ & Hkept).
    split; [exact Hone|].
    exact (proj1 (Hkept refreshed_creds eq_refl eq_refl)).
Defined.

(** C10: (1) if [token.json] exists and the credential loaded from it is
    valid, the call writes no file: the files are as before.  (2) In every
    run, either no file is written, or [token.json] is written once, with
    the credential that a refresh of the stored credential or the consent
    flow has just returned. *)
Theorem token_file_written_only_on_renewal (env : Env)
    (title start_time end_time description : string) (w : World) :
  let w' :=
    world_after (create_calendar_event env title start_time end_time description) w in
  (forall text c,
     files w !! "token.json" = Some text ->
     from_authorized_user_file env text = Returned c ->
     valid c = true ->
     files w' = files w /\ writes w' = writes w)
  /\ ((files w' = files w /\ writes w' = writes w)
      \/ exists c',
           files w' = <["token.json" := to_json c']> (files w)
           /\ writes w' = writes w ++ [("token.json", to_json c')]
           /\ ((exists text c,
                  files w !! "token.json" = Some text
                  /\ from_authorized_user_file env text = Returned c
                  /\ refresh env c = Returned c'
                  /\ calls_of CallRefresh w' = S (calls_of CallRefresh w))
               \/ (run_local_server env = Returned c'
                   /\ calls_of CallConsentFlow w' = S (calls_of CallConsentFlow w)))).
Proof.
  intros w'. subst w'. unfold world_after. rewrite create_calendar_event_steps.
  set (w0 := world_after (print _) w).
  split.
  - intros text c Hstored Hload Hvalid.
    assert (files w0 !! "token.json" = Some text) as Hstored0 by exact Hstored.
    rewrite (obtain_stored_valid env w0 text c Hstored0 Hload Hvalid).
    pose proof (insert_event_frame env c title start_time end_time description w0)
      as (Hf & Hw & _).
    exact (conj Hf Hw).
  - pose proof (obtain_credentials_writes env w0) as Hobtain.
    unfold world_after, outcome_of in Hobtain. cbn zeta in Hobtain.
    destruct (obtain_credentials env w0) as [[c1|e] w1] eqn:Hrun; cbn in Hobtain.
    + pose proof (insert_event_frame env c1 title start_time end_time description w1)
        as (Hf & Hw & Hr & Hc).
      unfold world_after in Hf, Hw, Hr, Hc. rewrite Hf, Hw, Hr, Hc.
      destruct Hobtain as [[Hf1 Hw1]|(c' & Hout & Hf1 & Hw1 & Hwho)].
      * left. exact (conj Hf1 Hw1).
      * right. exists c'. split; [exact Hf1|]. split; [exact Hw1|].
        destruct Hwho as [(text & c & Hs & Hl & Hre & Hcalls)|[Hflow Hcalls]].
        -- left. exists text, c. do 3 (split; [assumption|]).
           unfold calls_of. rewrite Hcalls. apply count_snoc_same.
        -- right. split; [assumption|].
           unfold calls_of. rewrite Hcalls. apply count_snoc_same.
    + destruct Hobtain as [[Hf1 Hw1]|(c' & Hout & _)]; [|discriminate].
      left. exact (conj Hf1 Hw1).
Qed.

Lemma token_file_written_only_on_renewal_witness :
  files
    (world_after
       (create_calendar_event sample_outside "Trip to Paris" "2025-06-01T08:00:00"
          "2025-06-01T11:00:00" "Flight FL123")
       (world_with_token "{live}"))
    = files (world_with_token "{live}")
  /\ writes
       (world_after
          (create_calendar_event sample_outside "Trip to Paris"
             "2025-06-01T08:00:00" "2025-06-01T11:00:00" "Flight FL123")
          (world_with_token "{live}"))
     = writes (world_with_token "{live}").
Proof.
  exact (proj1 (token_file_written_only_on_renewal sample_outside "Trip to Paris"
                  "2025-06-01T08:00:00" "2025-06-01T11:00:00" "Flight FL123"
                  (world_with_token "{live}"))
           "{live}" valid_creds eq_refl eq_refl eq_refl).
Defined.

(** ** The tool list *)

Lemma search_args_lookup (destination : string) (travel_dates : option string) :
  search_args destination travel_dates !! "destination" = Some destination
  /\ search_args destination travel_dates !! "travel_dates" = travel_dates.
Proof.
  unfold search_args. split; [apply lookup_insert_eq|].
  rewrite lookup_insert_ne by discriminate.
  destruct travel_dates; [apply lookup_singleton_eq|apply lookup_empty].
Qed.

(** C5, as amended: the tool list holds exactly five tools, named
    [search_flights], [book_flight], [Google_Hotels], [book_hotel] and
    [create_calendar_event], no name twice; the hotel search is the one named
    [Google_Hotels], it takes a required [destination] and an optional
    [travel_dates], and returns the two hotel offers [{id, name,
    price_per_night}] whatever the dates. *)
Theorem tool_catalogue :
  tool_name <$> tools
    = ["search_flights"; "book_flight"; "Google_Hotels"; "book_hotel";
       "create_calendar_event"]
  /\ NoDup (tool_name <$> tools)
  /\ tool_name <$> lookup_tool "Google_Hotels" = Some "Google_Hotels"
  /\ tool_params <$> lookup_tool "Google_Hotels"
       = Some [mkParam "destination" true; mkParam "travel_dates" false]
  /\ forall env destination travel_dates w,
       exists run,
         (lookup_tool "Google_Hotels" ≫= λ t,
            tool_func t env (search_args destination travel_dates)) = Some run
         /\ outcome_of run w = Returned (HotelList hotel_offers).
Proof.
  split; [reflexivity|]. split.
  { apply (bool_decide_unpack _). vm_compute. exact I. }
  split; [reflexivity|]. split; [reflexivity|].
  intros env destination travel_dates w.
  exists (map_M HotelList (Google_Hotels destination travel_dates)).
  destruct (search_args_lookup destination travel_dates) as [Hd Ht].
  split.
  - change (lookup_tool "Google_Hotels") with (Some Google_Hotels_tool).
    cbn. rewrite Hd, Ht. reflexivity.
  - pose proof (Google_Hotels_returns destination travel_dates w) as H.
    unfold outcome_of, map_M, bind, ret in *.
    destruct (Google_Hotels destination travel_dates w) as [[offers|e] w1];
      cbn in *; congruence.
Qed.

(** C5, as first stated, fails: no tool of the list is named
    [search_hotels]. *)
Lemma no_tool_named_search_hotels :
  ~ (exists t, t ∈ tools /\ tool_name t = "search_hotels").
Proof.
  intros (t & Hin & Hname). unfold tools in Hin.
  repeat (apply elem_of_cons in Hin as [->|Hin]; [discriminate Hname|]).
  by apply elem_of_nil in Hin.
Qed.

(** ** The chat session *)

Lemma all_but_last_snoc {A} (l : list A) (x : A) : all_but_last (l ++ [x]) = l.
Proof.
  unfold all_but_last. rewrite length_app. cbn.
  replace (length l + 1 - 1)%nat with (length l) by lia.
  by rewrite take_app_length.
Qed.

Section AppFacts.
Context {St : Type}.
Variable agent_executor_invoke : AgentInput -> St -> Outcome AgentResponse * St.

(** What one run of the script leaves in the message list. *)
Lemma run_script_messages (session_state : option (list Message))
    (chat_input : option string) (agent : St) :
  let messages := default [greeting] session_state in
  let prompt := default "" chat_input in
  messages_after (run_script agent_executor_invoke session_state chat_input agent)
    = messages ++
      (if truthy chat_input then
         HumanMessage prompt ::
         match (agent_executor_invoke (mkAgentInput prompt messages) agent).1 with
         | Returned response => [AIMessage (output response) []]
         | Raised _ => []
         end
       else []).
Proof.
  cbn zeta. unfold run_script.
  destruct (truthy chat_input); [|by rewrite app_nil_r].
  rewrite all_but_last_snoc.
  destruct (agent_executor_invoke _ agent) as [[response|e] agent']; cbn;
    [by rewrite <- app_assoc|reflexivity].
Qed.

Lemma run_script_invoked (session_state : option (list Message))
    (chat_input : option string) (agent : St) :
  invoked (run_script agent_executor_invoke session_state chat_input agent)
    = if truthy chat_input
      then Some (mkAgentInput (default "" chat_input)
                   (default [greeting] session_state))
      else None.
Proof.
  unfold run_script. destruct (truthy chat_input); [|reflexivity].
  rewrite all_but_last_snoc.
  by destruct (agent_executor_invoke _ agent) as [[response|e] agent'].
Qed.

Lemma run_script_plain (session_state : option (list Message))
    (chat_input : option string) (agent : St) :
  Forall plain_message (default [greeting] session_state) ->
  Forall plain_message
    (messages_after (run_script agent_executor_invoke session_state chat_input agent)).
Proof.
  intros Hplain. rewrite run_script_messages. cbn zeta.
  apply Forall_app. split; [assumption|].
  destruct (truthy chat_input); [|constructor].
  constructor; [exact I|].
  destruct (agent_executor_invoke _ agent).1; repeat constructor.
Qed.

(** The invariant of a session: transcript and histories hold plain
    messages only. *)
Lemma run_session_plain (inputs : list (option string))
    (session_state : option (list Message)) (agent : St) :
  Forall plain_message (default [greeting] session_state) ->
  Forall plain_message
    (run_session agent_executor_invoke session_state inputs agent).1
  /\ Forall (λ request, Forall plain_message (chat_history request))
       (run_session agent_executor_invoke session_state inputs agent).2.
Proof.
  revert session_state agent.
  induction inputs as [|chat_input rest IH]; intros session_state agent Hplain.
  - cbn. split; [assumption|constructor].
  - cbn [run_session].
    pose proof (run_script_plain session_state chat_input agent Hplain) as Hnext.
    pose proof (run_script_invoked session_state chat_input agent) as Hsent.
    set (r := run_script agent_executor_invoke session_state chat_input agent) in *.
    specialize (IH (Some (messages_after r)) (agent_after r) Hnext).
    destruct (run_session agent_executor_invoke (Some (messages_after r)) rest
                (agent_after r)) as [final sent].
    cbn in IH |- *. destruct IH as [Hfinal Hrest].
    split; [assumption|].
    apply Forall_app. split; [|assumption].
    rewrite Hsent. destruct (truthy chat_input); cbn; repeat constructor.
    assumption.
Qed.
End AppFacts.

(** C6: on a turn with input [prompt], the message list at the moment the
    agent is called is the earlier messages followed by the new
    [HumanMessage]; the agent is called with [input = prompt] and with
    [chat_history] equal to that list without its last element, that is,
    exactly the earlier messages.  The message of the current turn sits
    at the one position the history leaves out. *)
Theorem history_excludes_current_input {St : Type}
    (agent_executor_invoke : AgentInput -> St -> Outcome AgentResponse * St)
    (session_state : option (list Message)) (prompt : string) (agent : St) :
  str_truthy prompt = true ->
  let earlier := default [greeting] session_state in
  let at_call := earlier ++ [HumanMessage prompt] in
  let r := run_script agent_executor_invoke session_state (Some prompt) agent in
  invoked r = Some {| input := prompt; chat_history := all_but_last at_call |}
  /\ all_but_last at_call = earlier
  /\ at_call !! length (all_but_last at_call) = Some (HumanMessage prompt)
  /\ at_call `prefix_of` messages_after r.
Proof.
  intros Hprompt earlier at_call r. subst at_call r.
  rewrite all_but_last_snoc. split; [|split; [reflexivity|split]].
  - rewrite run_script_invoked. cbn. by rewrite Hprompt.
  - by rewrite lookup_app_r, Nat.sub_diag.
  - rewrite run_script_messages. cbn. rewrite Hprompt.
    match goal with
    | |- _ `prefix_of` _ ++ _ :: ?tail => exists tail
    end.
    by rewrite <- app_assoc.
Qed.

Lemma history_excludes_current_input_witness :
  invoked
    (run_script (λ _ (a : unit), (Returned (mkAgentResponse "Two flights found."), a))
       (Some [greeting; HumanMessage "I want to fly to London next month";
              AIMessage "Which dates?" []])
       (Some "book the cheaper one") tt)
  = Some {| input := "book the cheaper one";
            chat_history :=
              [greeting; HumanMessage "I want to fly to London next month";
               AIMessage "Which dates?" []] |}.
Proof.
  exact (proj1 (history_excludes_current_input
                  (λ _ (a : unit), (Returned (mkAgentResponse "Two flights found."), a))
                  (Some [greeting; HumanMessage "I want to fly to London next month";
                         AIMessage "Which dates?" []])
                  "book the cheaper one" tt eq_refl)).
Defined.

(** C7: a run of the script appends to the message list the user's input
    and, when the agent returns, its final answer text, and nothing else.
    Through a whole session, started fresh, the transcript and every history
    handed to the agent therefore hold only user inputs and answer texts:
    no message carrying a tool-call request and no tool result. *)
Theorem transcript_has_no_scratch {St : Type}
    (agent_executor_invoke : AgentInput -> St -> Outcome AgentResponse * St) :
  (forall session_state chat_input agent,
     messages_after (run_script agent_executor_invoke session_state chat_input agent)
       = default [greeting] session_state ++
         (if truthy chat_input then
            HumanMessage (default "" chat_input) ::
            match (agent_executor_invoke
                     (mkAgentInput (default "" chat_input)
                        (default [greeting] session_state)) agent).1 with
            | Returned response => [AIMessage (output response) []]
            | Raised _ => []
            end
          else []))
  /\ (forall inputs agent,
        Forall plain_message (run_session agent_executor_invoke None inputs agent).1
        /\ Forall (λ request, Forall plain_message (chat_history request))
             (run_session agent_executor_invoke None inputs agent).2).
Proof.
  split.
  - intros. apply run_script_messages.
  - intros inputs agent. apply run_session_plain. repeat constructor.
Qed.

(** ** The planning loop *)

Section PlanningLoopFacts.
Context {St : Type}.
Variable oracle : nat -> Context -> OracleReply.
Variable invoke_tool : ToolCallRequest -> St -> ToolResult * St.

Lemma asked_of_oracle_snoc history new_input asked scratch :
  asked_of_oracle oracle history new_input asked ->
  asked_of_oracle oracle history new_input
    (asked ++ [oracle (length asked) (mkContext history new_input scratch)]).
Proof.
  intros Hasked j reply Hj.
  apply lookup_app_Some in Hj as [Hj|[Hge Hj]]; [by apply Hasked|].
  apply list_lookup_singleton_Some in Hj as [Hj <-].
  exists scratch. f_equal. lia.
Qed.

Lemma planning_loop_bounded (budget : nat) :
  forall i history new_input scratch asked st,
    length asked = i ->
    Forall (λ reply, is_final reply = false) asked ->
    asked_of_oracle oracle history new_input asked ->
    let r := planning_loop oracle invoke_tool budget i history new_input
               scratch asked st in
    (length (replies r) <= i + budget)%nat
    /\ ((exists earlier,
           replies r = earlier ++ [FinalAnswer (final_text r)]
           /\ Forall (λ reply, is_final reply = false) earlier)
        \/ (final_text r = degraded_answer
            /\ length (replies r) = (i + budget)%nat
            /\ Forall (λ reply, is_final reply = false) (replies r)))
    /\ asked_of_oracle oracle history new_input (replies r).
Proof.
  induction budget as [|budget IH];
    intros i history new_input scratch asked st Hlen Htools Hasked.
  - cbn. split; [lia|]. split; [|assumption].
    right. split; [reflexivity|]. split; [lia|assumption].
  - cbn [planning_loop]. cbn zeta.
    pose proof (asked_of_oracle_snoc history new_input asked scratch Hasked)
      as Hnext.
    rewrite Hlen in Hnext.
    destruct (oracle i (mkContext history new_input scratch))
      as [text|reqs] eqn:Hreply.
    + cbn. rewrite length_app. cbn. split; [lia|]. split; [|assumption].
      left. by exists asked.
    + destruct (run_requests invoke_tool reqs st) as [done st'].
      specialize (IH (S i) history new_input (scratch ++ done)
                    (asked ++ [ToolCalls reqs]) st').
      cbn zeta in IH.
      destruct IH as (Hbound & Hend & Hall).
      * rewrite length_app. cbn. lia.
      * apply Forall_app. split; [assumption|]. by repeat constructor.
      * assumption.
      * split; [lia|]. split; [|assumption].
        destruct Hend as [Hend|(Htext & Hcap & Hnone)]; [by left|].
        right. split; [assumption|]. split; [lia|assumption].
Qed.
End PlanningLoopFacts.

(** C9: whatever the oracle replies and whatever the tools do, a turn of
    the planning loop ends after at most [max_iterations] questions to the
    oracle: either the last reply is a FinalAnswer, whose text is the
    turn's answer, all earlier replies being tool-call requests; or all
    [max_iterations] replies were tool-call requests and the answer is the
    degraded one. *)
Theorem planning_loop_terminates {St : Type}
    (oracle : nat -> Context -> OracleReply)
    (invoke_tool : ToolCallRequest -> St -> ToolResult * St)
    (max_iterations : nat) (history : list Message) (new_input : string)
    (st : St) :
  let r := plan_turn oracle invoke_tool max_iterations history new_input st in
  (length (replies r) <= max_iterations)%nat
  /\ ((exists earlier,
         replies r = earlier ++ [FinalAnswer (final_text r)]
         /\ Forall (λ reply, is_final reply = false) earlier)
      \/ (final_text r = degraded_answer
          /\ length (replies r) = max_iterations
          /\ Forall (λ reply, is_final reply = false) (replies r)))
  /\ (forall j reply,
        replies r !! j = Some reply ->
        exists scratch, reply = oracle j (mkContext history new_input scratch)).
Proof.
  unfold plan_turn.
  apply (planning_loop_bounded oracle invoke_tool max_iterations 0 history
           new_input [] [] st eq_refl).
  - constructor.
  - intros j reply Hj. by rewrite lookup_nil in Hj.
Qed.

(** ** The calendar tool: the remaining paths *)

Lemma obtain_credentials_calls (env : Env) (w : World) :
  let w1 := world_after (obtain_credentials env) w in
  calls w1 = calls w
  \/ calls w1 = calls w ++ [CallRefresh]
  \/ calls w1 = calls w ++ [CallConsentFlow].
Proof.
  run_calendar.
  destruct (files w !! "token.json") as [text|]; cbn.
  - destruct (from_authorized_user_file env text) as [c|e]; cbn; [|by left].
    destruct (valid c); cbn; [by left|].
    destruct (expired c && truthy (refresh_token c)); cbn.
    + destruct (refresh env c) as [c'|e]; cbn; [|by right; left].
      destruct (open_w env "token.json"); cbn; by right; left.
    + destruct (from_client_secrets_file env _) as [[]|e]; cbn; [|by left].
      destruct (run_local_server env) as [c'|e]; cbn; [|by right; right].
      destruct (open_w env "token.json"); cbn; by right; right.
  - destruct (from_client_secrets_file env _) as [[]|e]; cbn; [|by left].
    destruct (run_local_server env) as [c'|e]; cbn; [|by right; right].
    destruct (open_w env "token.json"); cbn; by right; right.
Qed.

Lemma insert_event_calls (env : Env) (c : Credentials)
    (title start_time end_time description : string) (w : World) :
  let w' := world_after (insert_event env c title start_time end_time description) w in
  calls w' = calls w \/ calls w' = calls w ++ [CallInsertEvent].
Proof.
  run_calendar.
  destruct (build env c) as [[]|e]; cbn.
  - destruct (events_insert env c _) as [r|e]; cbn;
      [|destruct (is_Exception e)]; by right.
  - destruct (is_Exception e); by left.
Qed.

(** What leaves the [try] block as an exception is not an [Exception]. *)
Lemma insert_event_raises (env : Env) (c : Credentials)
    (title start_time end_time description : string) (w : World) (e : Exn) :
  outcome_of (insert_event env c title start_time end_time description) w = Raised e ->
  is_Exception e = false.
Proof.
  run_calendar.
  destruct (build env c) as [[]|e1]; cbn.
  - destruct (events_insert env c _) as [r|e2]; cbn; [discriminate|].
    destruct (is_Exception e2) eqn:He2; cbn; [discriminate|].
    intros H. inversion H. by subst.
  - destruct (is_Exception e1) eqn:He1; cbn; [discriminate|].
    intros H. inversion H. by subst.
Qed.

(** X1: with a valid stored credential and a calendar that accepts the
    event, the tool returns ["Successfully created event with ID: <id>"]
    for the event built from its four arguments (both times in the zone
    America/New_York), prints the event's link, and makes exactly one outside
    call, the insert. *)
Theorem create_calendar_event_success (env : Env)
    (title start_time end_time description : string) (w : World)
    (text : string) (c : Credentials) (r : EventResource) :
  files w !! "token.json" = Some text ->
  from_authorized_user_file env text = Returned c ->
  valid c = true ->
  build env c = Returned tt ->
  events_insert env c
    {| summary := title; description := description;
       ev_start := mkTimePoint start_time "America/New_York";
       ev_end := mkTimePoint end_time "America/New_York" |} = Returned r ->
  let run := create_calendar_event env title start_time end_time description in
  outcome_of run w
    = Returned ("Successfully created event with ID: " +:+ py_str (res_id r))
  /\ calls (world_after run w) = calls w ++ [CallInsertEvent]
  /\ stdout (world_after run w)
     = stdout w ++ [LF +:+ "TOOL USED: Creating Google Calendar event..."]
         ++ ["Event created: " +:+ py_str (res_htmlLink r)].
Proof.
  intros Hstored Hload Hvalid Hbuild Hinsert run. subst run.
  unfold outcome_of, world_after. rewrite create_calendar_event_steps.
  set (w0 := world_after (print _) w).
  assert (files w0 !! "token.json" = Some text) as Hstored0 by exact Hstored.
  rewrite (obtain_stored_valid env w0 text c Hstored0 Hload Hvalid).
  unfold insert_event, calendar_event, try_except, bind, lift, record_call, print, ret.
  rewrite Hbuild. cbn. rewrite Hinsert. cbn.
  repeat split. by rewrite <- app_assoc.
Qed.

Lemma create_calendar_event_success_witness :
  outcome_of
    (create_calendar_event sample_outside "Trip to Paris" "2025-06-01T08:00:00"
       "2025-06-01T11:00:00" "Flight FL123") (world_with_token "{live}")
  = Returned ("Successfully created event with ID: " +:+ py_str (Some "evt123")).
Proof.
  exact (proj1 (create_calendar_event_success sample_outside "Trip to Paris"
                  "2025-06-01T08:00:00" "2025-06-01T11:00:00" "Flight FL123"
                  (world_with_token "{live}") "{live}" valid_creds created_event
                  eq_refl eq_refl eq_refl eq_refl eq_refl)).
Defined.

(** X2: with a valid stored credential, an [Exception] raised by the API
    client, when the service is built or when the event is inserted, comes
    back as the string ["Error creating event: <str(e)>"]; the call does
    not raise and no file is written. *)
Theorem create_calendar_event_api_error (env : Env)
    (title start_time end_time description : string) (w : World)
    (text : string) (c : Credentials) (e : Exn) :
  files w !! "token.json" = Some text ->
  from_authorized_user_file env text = Returned c ->
  valid c = true ->
  is_Exception e = true ->
  build env c = Raised e
  \/ (build env c = Returned tt
      /\ events_insert env c (calendar_event title start_time end_time description)
         = Raised e) ->
  let run := create_calendar_event env title start_time end_time description in
  outcome_of run w = Returned ("Error creating event: " +:+ exn_str e)
  /\ files (world_after run w) = files w.
Proof.
  intros Hstored Hload Hvalid He Hfail run. subst run.
  unfold outcome_of, world_after. rewrite create_calendar_event_steps.
  set (w0 := world_after (print _) w).
  assert (files w0 !! "token.json" = Some text) as Hstored0 by exact Hstored.
  rewrite (obtain_stored_valid env w0 text c Hstored0 Hload Hvalid).
  unfold insert_event, try_except, bind, lift, record_call, print, ret.
  destruct Hfail as [Hbuild|[Hbuild Hinsert]].
  - rewrite Hbuild. cbn. rewrite He. auto.
  - rewrite Hbuild. cbn. rewrite Hinsert. cbn. rewrite He. auto.
Qed.

Lemma create_calendar_event_api_error_witness :
  outcome_of
    (create_calendar_event rejecting_outside "Trip to Paris" "2025-06-01T08:00:00"
       "2025-06-01T11:00:00" "Flight FL123") (world_with_token "{live}")
  = Returned ("Error creating event: " +:+ exn_str quota_exceeded).
Proof.
  exact (proj1 (create_calendar_event_api_error rejecting_outside "Trip to Paris"
                  "2025-06-01T08:00:00" "2025-06-01T11:00:00" "Flight FL123"
                  (world_with_token "{live}") "{live}" valid_creds quota_exceeded
                  eq_refl eq_refl eq_refl eq_refl
                  (or_intror (conj eq_refl eq_refl)))).
Defined.

Lemma obtain_no_token (env : Env) (w : World) :
  files w !! "token.json" = None ->
  obtain_credentials env w = renew_credentials env None w.
Proof.
  intros Hnone. unfold obtain_credentials, read_path, bind, ret. by rewrite Hnone.
Qed.

Lemma obtain_unrefreshable (env : Env) (w : World) (text : string) (c : Credentials) :
  files w !! "token.json" = Some text ->
  from_authorized_user_file env text = Returned c ->
  valid c = false ->
  expired c && truthy (refresh_token c) = false ->
  obtain_credentials env w = renew_credentials env None w.
Proof.
  intros Hstored Hload Hvalid Hnot.
  unfold obtain_credentials, renew_credentials, read_path, bind, lift, ret.
  rewrite Hstored, Hload. cbn. by rewrite Hvalid, Hnot.
Qed.

(** The consent path, case by case. *)
Lemma consent_path (env : Env) (w : World) :
  renew_credentials env None w
  = match from_client_secrets_file env (files w !! "credentials.json") with
    | Raised e => (Raised e, w)
    | Returned _ =>
        let w1 := {| stdout := stdout w; files := files w;
                     calls := calls w ++ [CallConsentFlow]; writes := writes w |} in
        match run_local_server env with
        | Raised e => (Raised e, w1)
        | Returned c' =>
            match open_w env "token.json" with
            | Some e => (Raised e, w1)
            | None =>
                (Returned c',
                 {| stdout := stdout w;
                    files := <["token.json" := to_json c']> (files w);
                    calls := calls w ++ [CallConsentFlow];
                    writes := writes w ++ [("token.json", to_json c')] |})
            end
        end
    end.
Proof.
  unfold renew_credentials, consent_flow, write_file, read_path, record_call,
    bind, lift, ret. cbn.
  destruct (from_client_secrets_file env _) as [[]|e]; [|reflexivity]. cbn.
  destruct (run_local_server env) as [c'|e]; [|reflexivity]. cbn.
  destruct (open_w env "token.json"); reflexivity.
Qed.

(** X3: on a first run, with no [token.json], no refresh is attempted.
    If [credentials.json] does not load, that error leaves the tool and
    nothing outside the process is called, the consent flow included.  If
    it loads, the consent flow is started exactly once, whether it succeeds
    or not; and when the flow returns a credential and the file can be
    written, [token.json] holds that credential afterwards and no other
    file has changed. *)
Theorem first_run_consent (env : Env)
    (title start_time end_time description : string) (w : World) :
  files w !! "token.json" = None ->
  let run := create_calendar_event env title start_time end_time description in
  calls_of CallRefresh (world_after run w) = calls_of CallRefresh w
  /\ match from_client_secrets_file env (files w !! "credentials.json") with
     | Raised e =>
         outcome_of run w = Raised e /\ calls (world_after run w) = calls w
     | Returned _ =>
         calls_of CallConsentFlow (world_after run w)
           = S (calls_of CallConsentFlow w)
         /\ forall c',
              run_local_server env = Returned c' ->
              open_w env "token.json" = None ->
              files (world_after run w)
                = <["token.json" := to_json c']> (files w)
     end.
Proof.
  intros Hnone run. subst run.
  unfold outcome_of, world_after. rewrite create_calendar_event_steps.
  set (w0 := world_after (print _) w).
  assert (files w0 !! "token.json" = None) as Hnone0 by exact Hnone.
  rewrite (obtain_no_token env w0 Hnone0), consent_path.
  change (files w0) with (files w).
  destruct (from_client_secrets_file env _) as [[]|e]; [|by cbn].
  cbv beta iota zeta.
  destruct (run_local_server env) as [c1|e].
  - destruct (open_w env "token.json").
    + count_calls. do 2 (split; [reflexivity|]). discriminate.
    + match goal with
      | |- context [insert_event env c1 _ _ _ _ ?w1] =>
          pose proof (insert_event_frame env c1 title start_time end_time
                        description w1) as (Hf & _ & Hr & Hc)
      end.
      unfold world_after in Hf, Hr, Hc. rewrite Hf, Hr, Hc. count_calls.
      do 2 (split; [reflexivity|]).
      intros c' Hc' _. by inversion Hc'.
  - count_calls. do 2 (split; [reflexivity|]). discriminate.
Qed.

Lemma first_run_consent_witness :
  calls_of CallConsentFlow
    (world_after
       (create_calendar_event sample_outside "Trip to Paris" "2025-06-01T08:00:00"
          "2025-06-01T11:00:00" "Flight FL123") world_with_secrets)
  = S (calls_of CallConsentFlow world_with_secrets)
  /\ files
       (world_after
          (create_calendar_event sample_outside "Trip to Paris"
             "2025-06-01T08:00:00" "2025-06-01T11:00:00" "Flight FL123")
          world_with_secrets)
     = <["token.json" := to_json refreshed_creds]> (files world_with_secrets).
Proof.
  pose proof (proj2 (first_run_consent sample_outside "Trip to Paris"
                       "2025-06-01T08:00:00" "2025-06-01T11:00:00" "Flight FL123"
                       world_with_secrets eq_refl)) as [Hflow Hsaved].
  split; [exact Hflow|].
  exact (Hsaved refreshed_creds eq_refl eq_refl).
Defined.

(** X4: an [Exception] that leaves [create_calendar_event] was raised
    while the credential was being obtained: the calendar API was not
    called, so no event was inserted. *)
Theorem escaping_exception_means_no_insert (env : Env)
    (title start_time end_time description : string) (w : World) (e : Exn) :
  let run := create_calendar_event env title start_time end_time description in
  outcome_of run w = Raised e ->
  is_Exception e = true ->
  calls_of CallInsertEvent (world_after run w) = calls_of CallInsertEvent w.
Proof.
  intros run. subst run. unfold outcome_of, world_after.
  rewrite create_calendar_event_steps.
  set (w0 := world_after (print _) w).
  pose proof (obtain_credentials_calls env w0) as Hcalls.
  unfold world_after in Hcalls. cbn zeta in Hcalls.
  destruct (obtain_credentials env w0) as [[c1|e1] w1].
  - intros Hraised He.
    apply insert_event_raises in Hraised. congruence.
  - cbn. intros _ _. cbn in Hcalls. unfold calls_of.
    destruct Hcalls as [->|[-> | ->]]; [reflexivity|..];
      by rewrite count_snoc_other.
Qed.

Lemma escaping_exception_means_no_insert_witness :
  calls_of CallInsertEvent
    (world_after
       (create_calendar_event
          (outside (Returned expired_creds) (Raised revoked)
             (Returned refreshed_creds) (Returned created_event))
          "Trip to Paris" "2025-06-01T08:00:00" "2025-06-01T11:00:00" "Flight FL123")
       (world_with_token "{stale}"))
  = calls_of CallInsertEvent (world_with_token "{stale}").
Proof.
  exact (escaping_exception_means_no_insert
           (outside (Returned expired_creds) (Raised revoked)
              (Returned refreshed_creds) (Returned created_event))
           "Trip to Paris" "2025-06-01T08:00:00" "2025-06-01T11:00:00" "Flight FL123"
           (world_with_token "{stale}") revoked eq_refl eq_refl).
Defined.

(** X5: a stored credential that is not valid and cannot be refreshed
    (expired without a refresh token, or holding no token) is never
    refreshed: the consent flow is started instead, once, provided
    [credentials.json] loads; if it does not, that error leaves the tool and
    nothing outside the process is called. *)
Theorem unrefreshable_credential_needs_consent (env : Env)
    (title start_time end_time description : string) (w : World)
    (text : string) (c : Credentials) :
  files w !! "token.json" = Some text ->
  from_authorized_user_file env text = Returned c ->
  valid c = false ->
  expired c && truthy (refresh_token c) = false ->
  let run := create_calendar_event env title start_time end_time description in
  calls_of CallRefresh (world_after run w) = calls_of CallRefresh w
  /\ match from_client_secrets_file env (files w !! "credentials.json") with
     | Returned _ =>
         calls_of CallConsentFlow (world_after run w)
           = S (calls_of CallConsentFlow w)
     | Raised e =>
         outcome_of run w = Raised e /\ calls (world_after run w) = calls w
     end.
Proof.
  intros Hstored Hload Hvalid Hnot run. subst run.
  unfold outcome_of, world_after. rewrite create_calendar_event_steps.
  set (w0 := world_after (print _) w).
  assert (files w0 !! "token.json" = Some text) as Hstored0 by exact Hstored.
  rewrite (obtain_unrefreshable env w0 text c Hstored0 Hload Hvalid Hnot),
    consent_path.
  change (files w0) with (files w).
  destruct (from_client_secrets_file env _) as [[]|e]; [|by cbn].
  cbv beta iota zeta.
  destruct (run_local_server env) as [c'|e]; [|by count_calls].
  destruct (open_w env "token.json"); [by count_calls|].
  match goal with
  | |- context [insert_event env c' _ _ _ _ ?w1] =>
      pose proof (insert_event_frame env c' title start_time end_time
                    description w1) as (_ & _ & Hr & Hc)
  end.
  unfold world_after in Hr, Hc. rewrite Hr, Hc. by count_calls.
Qed.

Lemma unrefreshable_credential_needs_consent_witness :
  calls_of CallRefresh
    (world_after
       (create_calendar_event unrefreshable_outside "Trip to Paris"
          "2025-06-01T08:00:00" "2025-06-01T11:00:00" "Flight FL123")
       (world_with_token "{stale, no refresh}"))
  = calls_of CallRefresh (world_with_token "{stale, no refresh}").
Proof.
  exact (proj1 (unrefreshable_credential_needs_consent unrefreshable_outside
                  "Trip to Paris" "2025-06-01T08:00:00" "2025-06-01T11:00:00"
                  "Flight FL123" (world_with_token "{stale, no refresh}")
                  "{stale, no refresh}" unrefreshable_creds
                  eq_refl eq_refl eq_refl eq_refl)).
Defined.

(** X6: in every run the calls that leave the process are, in this order,
    at most one call for a credential (a refresh or the consent flow, never
    both) and at most one insert of an event. *)
Theorem outside_calls_protocol (env : Env)
    (title start_time end_time description : string) (w : World) :
  let w' :=
    world_after (create_calendar_event env title start_time end_time description) w in
  exists auth api,
    calls w' = calls w ++ auth ++ api
    /\ (auth = [] \/ auth = [CallRefresh] \/ auth = [CallConsentFlow])
    /\ (api = [] \/ api = [CallInsertEvent]).
Proof.
  intros w'. subst w'. unfold world_after. rewrite create_calendar_event_steps.
  set (w0 := world_after (print _) w).
  pose proof (obtain_credentials_calls env w0) as Hauth.
  unfold world_after in Hauth. cbn zeta in Hauth.
  destruct (obtain_credentials env w0) as [[c1|e1] w1]; cbn in Hauth.
  - pose proof (insert_event_calls env c1 title start_time end_time description w1)
      as Hapi.
    unfold world_after in Hapi. cbn zeta in Hapi.
    destruct Hauth as [Hauth|[Hauth|Hauth]], Hapi as [Hapi|Hapi];
      rewrite Hapi, Hauth;
      [ exists [], [] | exists [], [CallInsertEvent]
      | exists [CallRefresh], [] | exists [CallRefresh], [CallInsertEvent]
      | exists [CallConsentFlow], [] | exists [CallConsentFlow], [CallInsertEvent] ];
      rewrite <- ?app_assoc, ?app_nil_r; auto.
  - cbn. destruct Hauth as [Hauth|[Hauth|Hauth]]; rewrite Hauth;
      [ exists [], [] | exists [CallRefresh], [] | exists [CallConsentFlow], [] ];
      rewrite ?app_nil_r; auto.
Qed.

(** ** The mock tools: what they leave alone, what they log *)

(** X7: the four mock tools write no file and call nothing outside the
    process; all they do to the world is print. *)
Theorem mock_tools_frame (env : Env) (destination : string)
    (travel_dates : option string) (id : string) (w : World) :
  let untouched (w' : World) :=
    files w' = files w /\ calls w' = calls w /\ writes w' = writes w
    /\ stdout w `prefix_of` stdout w' in
  untouched (world_after (search_flights env destination travel_dates) w)
  /\ untouched (world_after (Google_Hotels destination travel_dates) w)
  /\ untouched (world_after (book_flight id) w)
  /\ untouched (world_after (book_hotel id) w).
Proof.
  cbv zeta.
  assert (forall (l : list string) a, l `prefix_of` l ++ [a]) as Hone
    by (intros l a; by exists [a]).
  assert (forall (l : list string) a b, l `prefix_of` (l ++ [a]) ++ [b]) as Htwo
    by (intros l a b; exists [a; b]; by rewrite <- app_assoc).
  split; [|split; [|split]].
  - unfold search_flights. run_tool.
    destruct (date_add_days (today env) 28) as [d0|e]; cbn; [|by auto].
    destruct (truthy travel_dates); cbn; [|by auto].
    destruct (unpack2 _) as [[a b]|e]; cbn.
    + destruct (fromisoformat env a) as [parsed|e]; cbn; [by auto|].
      destruct (is_ValueError e); cbn; by auto.
    + destruct (is_ValueError e); cbn; by auto.
  - unfold Google_Hotels. run_tool.
    destruct (truthy travel_dates); cbn; [|by auto].
    destruct (unpack2 _) as [[a b]|e]; cbn; [by auto|].
    destruct (is_ValueError e); cbn; by auto.
  - unfold book_flight. run_tool. by auto.
  - unfold book_hotel. run_tool. by auto.
Qed.

(** X8: when [search_flights] falls back to the default date it says so
    on standard output and goes on: after the line that names the tool it
    prints ["Could not parse date string, using default dates."] for dates
    it could not use, and ["No travel dates provided, using default
    dates."] for absent or empty ones. *)
Theorem search_flights_logs_fallback (env : Env) (destination : string)
    (travel_dates : option string) (w : World) (d0 : date) :
  (forall s e, fromisoformat env s = Raised e -> is_ValueError e = true) ->
  date_add_days (today env) 28 = Returned d0 ->
  accepted_start env travel_dates = None ->
  stdout (world_after (search_flights env destination travel_dates) w)
    = stdout w
      ++ [LF +:+ "TOOL USED: Searching for flights to " +:+ destination +:+ "...";
          if truthy travel_dates
          then "Could not parse date string, using default dates."
          else "No travel dates provided, using default dates."].
Proof.
  intros Hlib Hd0. unfold search_flights, accepted_start. run_tool.
  rewrite Hd0. cbn.
  destruct (truthy travel_dates); cbn; [|by rewrite <- app_assoc].
  destruct (split " to " (default "" travel_dates)) as [|a [|b [|c parts]]];
    cbn; try (intros _; by rewrite <- app_assoc).
  destruct (fromisoformat env a) as [parsed|e] eqn:Hparse; cbn; [discriminate|].
  rewrite (Hlib _ _ Hparse). cbn. intros _. by rewrite <- app_assoc.
Qed.

Lemma search_flights_logs_fallback_witness :
  stdout (world_after (search_flights sample_outside "Paris" (Some "next week"))
            empty_world)
  = stdout empty_world
    ++ [LF +:+ "TOOL USED: Searching for flights to " +:+ "Paris" +:+ "...";
        if truthy (Some "next week")
        then "Could not parse date string, using default dates."
        else "No travel dates provided, using default dates."].
Proof.
  exact (search_flights_logs_fallback sample_outside "Paris" (Some "next week")
           empty_world (mkDate 2025 1 29) fromisoformat_date_raises_ValueError
           eq_refl eq_refl).
Defined.

(** X9: a [travel_dates] with no space in it, hence without the separator,
    is never used, not even when it is a valid date by itself such as
    ["2025-06-01"]: the offers carry the default start date. *)
Theorem lone_date_falls_back (env : Env) (destination s : string) (w : World)
    (d0 : date) :
  date_add_days (today env) 28 = Returned d0 ->
  str_truthy s = true ->
  no_space s = true ->
  outcome_of (search_flights env destination (Some s)) w
    = Returned (flight_offers destination (strftime_Ymd d0)).
Proof.
  intros Hd0 Hs Hno. unfold search_flights. run_tool.
  rewrite Hd0. cbn. rewrite Hs.
  fold (split " to " s). unfold split.
  rewrite (split_from_no_space s "" Hno). reflexivity.
Qed.

Lemma lone_date_falls_back_witness :
  outcome_of (search_flights sample_outside "Paris" (Some "2025-06-01")) empty_world
  = Returned (flight_offers "Paris" (strftime_Ymd (mkDate 2025 1 29))).
Proof.
  exact (lone_date_falls_back sample_outside "Paris" "2025-06-01" empty_world
           (mkDate 2025 1 29) eq_refl eq_refl eq_refl).
Defined.

Lemma split_from_first (a rest cur : string) :
  no_space a = true ->
  split_from " to " (a +:+ " to " +:+ rest) 0 cur
    = (cur +:+ a) :: split_from " to " rest 0 "".
Proof.
  revert cur. induction a as [|c a IH]; intros cur Ha.
  - rewrite append_empty_r.
    change ("" +:+ " to " +:+ rest) with (String " " ("to " +:+ rest)).
    cbn [split_from]. change (String " " ("to " +:+ rest)) with (" to " +:+ rest).
    by rewrite prefix_to_here.
  - cbn [no_space] in Ha. apply andb_prop in Ha as [Hc Ha].
    apply negb_true_iff in Hc.
    rewrite append_cons. cbn [split_from]. rewrite (prefix_to_not_space c _ Hc).
    rewrite (IH _ Ha), append_assoc. reflexivity.
Qed.

(** X10: a [travel_dates] with a third piece, ['A to B to C'], is not
    used either, whatever [A] is: the unpacking into two names fails and the
    offers carry the default start date. *)
Theorem extra_piece_falls_back (env : Env) (destination a b c : string)
    (w : World) (d0 : date) :
  date_add_days (today env) 28 = Returned d0 ->
  no_space a = true -> no_space b = true -> no_space c = true ->
  outcome_of
    (search_flights env destination (Some (a +:+ " to " +:+ b +:+ " to " +:+ c))) w
    = Returned (flight_offers destination (strftime_Ymd d0)).
Proof.
  intros Hd0 Ha Hb Hc. unfold search_flights. run_tool.
  rewrite Hd0. cbn. rewrite str_truthy_around.
  rewrite (split_from_first a _ "" Ha), (split_from_around b c "" Hb Hc).
  reflexivity.
Qed.

Lemma extra_piece_falls_back_witness :
  outcome_of
    (search_flights sample_outside "Paris"
       (Some ("2025-06-01" +:+ " to " +:+ "2025-06-05" +:+ " to " +:+ "2025-06-10")))
    empty_world
  = Returned (flight_offers "Paris" (strftime_Ymd (mkDate 2025 1 29))).
Proof.
  exact (extra_piece_falls_back sample_outside "Paris" "2025-06-01" "2025-06-05"
           "2025-06-10" empty_world (mkDate 2025 1 29)
           eq_refl eq_refl eq_refl eq_refl).
Defined.

(** X11: the hotel search does not look into the dates: any two pieces
    around [" to "], dates or not, are reported as the parsed start and
    end, and the same two hotels are returned. *)
Theorem hotel_search_takes_any_two_pieces (destination a b : string) (w : World) :
  no_space a = true -> no_space b = true ->
  let run := Google_Hotels destination (Some (a +:+ " to " +:+ b)) in
  outcome_of run w = Returned hotel_offers
  /\ stdout (world_after run w)
     = stdout w
       ++ [LF +:+ "TOOL USED: Searching for hotels in " +:+ destination +:+ "...";
           "Using parsed dates for hotel search: Start - " +:+ a +:+
           ", End - " +:+ b].
Proof.
  intros Ha Hb run. subst run. unfold Google_Hotels. run_tool.
  rewrite str_truthy_around.
  fold (split " to " (a +:+ " to " +:+ b)). rewrite (split_around a b Ha Hb).
  cbn. split; [reflexivity|]. by rewrite <- app_assoc.
Qed.

Lemma hotel_search_takes_any_two_pieces_witness :
  outcome_of (Google_Hotels "Paris" (Some ("soon" +:+ " to " +:+ "later")))
    empty_world
  = Returned hotel_offers.
Proof.
  exact (proj1 (hotel_search_takes_any_two_pieces "Paris" "soon" "later"
                  empty_world eq_refl eq_refl)).
Defined.

(** ** The booking tools: distinct IDs, distinct confirmations *)

Lemma string_length_app (a b : string) :
  String.length (a +:+ b) = (String.length a + String.length b)%nat.
Proof.
  induction a as [|x a IH]; [reflexivity|].
  rewrite append_cons. cbn. by rewrite IH.
Qed.

Lemma append_inj_r (x y c : string) : x +:+ c = y +:+ c -> x = y.
Proof.
  revert y. induction x as [|a x IH]; intros [|b y] H.
  - reflexivity.
  - apply (f_equal String.length) in H.
    rewrite !string_length_app in H. cbn in H. lia.
  - apply (f_equal String.length) in H.
    rewrite !string_length_app in H. cbn in H. lia.
  - rewrite !append_cons in H. inversion H. f_equal. by apply IH.
Qed.

(** X12: the confirmation ID determines the ID that was booked: two
    flight bookings, or two hotel bookings, with the same confirmation ID
    were made for the same flight or hotel ID. *)
Theorem confirmation_id_injective (x y : string) (w w' : World) (b1 b2 : Booking) :
  (outcome_of (book_flight x) w = Returned b1
   /\ outcome_of (book_flight y) w' = Returned b2)
  \/ (outcome_of (book_hotel x) w = Returned b1
      /\ outcome_of (book_hotel y) w' = Returned b2) ->
  confirmation_id b1 = confirmation_id b2 ->
  x = y.
Proof.
  intros [[H1 H2]|[H1 H2]] Hsame; inversion H1; inversion H2; subst b1 b2;
    cbn in Hsame;
    apply (inj (String.app "CONF-")) in Hsame;
    by apply append_inj_r in Hsame.
Qed.

Lemma confirmation_id_injective_witness : "FL123" = "FL123".
Proof.
  exact (confirmation_id_injective "FL123" "FL123" empty_world empty_world
           (mkBooking "success" "CONF-FL123-BKD") (mkBooking "success" "CONF-FL123-BKD")
           (or_introl (conj eq_refl eq_refl)) eq_refl).
Defined.

(** ** The chat session: display, failure, growth *)

Section SessionFacts.
Context {St : Type}.
Variable agent_executor_invoke : AgentInput -> St -> Outcome AgentResponse * St.

Lemma run_script_extends (session_state : option (list Message))
    (chat_input : option string) (agent : St) :
  default [greeting] session_state
    `prefix_of`
  messages_after (run_script agent_executor_invoke session_state chat_input agent).
Proof. rewrite run_script_messages. cbn zeta. by eexists. Qed.

Lemma run_session_extends (inputs : list (option string))
    (session_state : option (list Message)) (agent : St) :
  default [greeting] session_state
    `prefix_of` (run_session agent_executor_invoke session_state inputs agent).1.
Proof.
  revert session_state agent.
  induction inputs as [|chat_input rest IH]; intros session_state agent.
  - reflexivity.
  - cbn [run_session].
    pose proof (run_script_extends session_state chat_input agent) as Hstep.
    set (r := run_script agent_executor_invoke session_state chat_input agent) in *.
    specialize (IH (Some (messages_after r)) (agent_after r)).
    destruct (run_session agent_executor_invoke (Some (messages_after r)) rest
                (agent_after r)) as [final sent].
    cbn in IH |- *. by etrans.
Qed.

(** Every history sent in a session starts with the messages the session
    started from. *)
Lemma run_session_histories_extend (inputs : list (option string))
    (session_state : option (list Message)) (agent : St) (request : AgentInput) :
  request ∈ (run_session agent_executor_invoke session_state inputs agent).2 ->
  default [greeting] session_state `prefix_of` chat_history request.
Proof.
  revert session_state agent.
  induction inputs as [|chat_input rest IH]; intros session_state agent.
  - cbn. intros H. by apply elem_of_nil in H.
  - cbn [run_session].
    pose proof (run_script_extends session_state chat_input agent) as Hstep.
    pose proof (run_script_invoked agent_executor_invoke session_state chat_input
                  agent) as Hsent.
    set (r := run_script agent_executor_invoke session_state chat_input agent) in *.
    specialize (IH (Some (messages_after r)) (agent_after r)).
    destruct (run_session agent_executor_invoke (Some (messages_after r)) rest
                (agent_after r)) as [final sent].
    cbn in IH |- *. intros Hin.
    apply elem_of_app in Hin as [Hin|Hin].
    + rewrite Hsent in Hin. destruct (truthy chat_input); cbn in Hin.
      * apply list_elem_of_singleton in Hin as ->. reflexivity.
      * by apply elem_of_nil in Hin.
    + etrans; [exact Hstep|]. by apply IH.
Qed.
End SessionFacts.

(** X13: what a run of the script puts on the screen is the transcript
    it leaves behind: the markdown blocks rendered, bubble after bubble, are
    the texts of the messages in order.  There is one bubble per message,
    and one more, an assistant bubble left empty, when the agent raised. *)
Theorem rendered_shows_transcript {St : Type}
    (agent_executor_invoke : AgentInput -> St -> Outcome AgentResponse * St)
    (session_state : option (list Message)) (chat_input : option string)
    (agent : St) :
  let r := run_script agent_executor_invoke session_state chat_input agent in
  concat (rendered r).*2 = message_content <$> messages_after r
  /\ length (rendered r)
     = (length (messages_after r)
        + match uncaught r with Some _ => 1 | None => 0 end)%nat
  /\ (forall e, uncaught r = Some e -> last (rendered r) = Some ("assistant", [])).
Proof.
  cbn zeta. unfold run_script.
  assert (forall l : list Message,
            concat ((λ m, (message_type m, [message_content m])) <$> l).*2
            = message_content <$> l) as Hshown.
  { induction l as [|m l IH]; [reflexivity|]. cbn. by rewrite IH. }
  destruct (truthy chat_input).
  - destruct (agent_executor_invoke _ agent) as [[response|e] agent'];
      cbn [rendered messages_after uncaught];
      rewrite !fmap_app, !concat_app, Hshown, !length_app, !length_fmap;
      cbn; rewrite ?app_nil_r; (split; [reflexivity|]); (split; [lia|]).
    + discriminate.
    + intros _ _. by rewrite last_snoc.
  - cbn [rendered messages_after uncaught].
    rewrite Hshown, length_fmap. split; [reflexivity|]. split; [lia|discriminate].
Qed.

(** X14: when the agent raises, the run ends with that exception; the
    user's message is already in the transcript and stays there without an
    answer, so the next turn's history ends with it. *)
Theorem failed_turn_leaves_question {St : Type}
    (agent_executor_invoke : AgentInput -> St -> Outcome AgentResponse * St)
    (session_state : option (list Message)) (prompt next_prompt : string)
    (agent agent' : St) (e : Exn) :
  str_truthy prompt = true ->
  str_truthy next_prompt = true ->
  agent_executor_invoke
    {| input := prompt; chat_history := default [greeting] session_state |} agent
    = (Raised e, agent') ->
  let r := run_script agent_executor_invoke session_state (Some prompt) agent in
  let r' :=
    run_script agent_executor_invoke (Some (messages_after r)) (Some next_prompt)
      (agent_after r) in
  uncaught r = Some e
  /\ messages_after r = default [greeting] session_state ++ [HumanMessage prompt]
  /\ invoked r'
     = Some {| input := next_prompt;
               chat_history :=
                 default [greeting] session_state ++ [HumanMessage prompt] |}.
Proof.
  intros Hprompt Hnext Hraise r r'.
  assert (uncaught r = Some e
          /\ messages_after r
             = default [greeting] session_state ++ [HumanMessage prompt])
    as [Hcaught Hmessages].
  { subst r. unfold run_script. cbn. rewrite Hprompt, all_but_last_snoc, Hraise.
    by split. }
  split; [assumption|]. split; [assumption|].
  subst r'. rewrite run_script_invoked. cbn. by rewrite Hnext, Hmessages.
Qed.

Lemma failed_turn_leaves_question_witness :
  messages_after
    (run_script (failing_agent (mkExn TransportError "connection reset")) None
       (Some "Find flights to Paris") tt)
  = default [greeting] None ++ [HumanMessage "Find flights to Paris"].
Proof.
  exact (proj1 (proj2 (failed_turn_leaves_question
                         (failing_agent (mkExn TransportError "connection reset"))
                         None "Find flights to Paris" "Are you there?" tt tt
                         (mkExn TransportError "connection reset")
                         eq_refl eq_refl eq_refl))).
Defined.

(** X15: the transcript is append-only: whatever the inputs and whatever
    the agent does, the messages a session started from are a prefix of the
    final transcript, and a fresh session's transcript begins with the
    greeting. *)
Theorem transcript_append_only {St : Type}
    (agent_executor_invoke : AgentInput -> St -> Outcome AgentResponse * St)
    (inputs : list (option string)) (session_state : option (list Message))
    (agent : St) :
  default [greeting] session_state
    `prefix_of` (run_session agent_executor_invoke session_state inputs agent).1
  /\ (run_session agent_executor_invoke None inputs agent).1 !! 0%nat
     = Some greeting.
Proof.
  split; [apply run_session_extends|].
  destruct (run_session_extends agent_executor_invoke inputs None agent)
    as [tail ->].
  reflexivity.
Qed.

(** X16: histories only grow: of two requests sent to the agent in one
    session, the later one's history begins with the earlier one's history
    followed by the earlier one's input. *)
Theorem histories_grow {St : Type}
    (agent_executor_invoke : AgentInput -> St -> Outcome AgentResponse * St)
    (inputs : list (option string)) (session_state : option (list Message))
    (agent : St) (i j : nat) (earlier later : AgentInput) :
  (i < j)%nat ->
  (run_session agent_executor_invoke session_state inputs agent).2 !! i
    = Some earlier ->
  (run_session agent_executor_invoke session_state inputs agent).2 !! j
    = Some later ->
  chat_history earlier ++ [HumanMessage (input earlier)]
    `prefix_of` chat_history later.
Proof.
  revert session_state agent i j.
  induction inputs as [|chat_input rest IH]; intros session_state agent i j Hij.
  - cbn. intros H. by rewrite lookup_nil in H.
  - cbn [run_session].
    pose proof (run_script_messages agent_executor_invoke session_state chat_input
                  agent) as Hstep.
    pose proof (run_script_invoked agent_executor_invoke session_state chat_input
                  agent) as Hsent.
    pose proof (run_session_histories_extend agent_executor_invoke rest
                  (Some (messages_after
                           (run_script agent_executor_invoke session_state
                              chat_input agent)))
                  (agent_after
                     (run_script agent_executor_invoke session_state chat_input
                        agent)) later) as Hlater.
    cbn zeta in Hstep.
    set (r := run_script agent_executor_invoke session_state chat_input agent) in *.
    specialize (IH (Some (messages_after r)) (agent_after r)).
    destruct (run_session agent_executor_invoke (Some (messages_after r)) rest
                (agent_after r)) as [final sent].
    cbn in IH, Hlater |- *. rewrite Hsent.
    destruct (truthy chat_input); cbn.
    + destruct i as [|i], j as [|j]; try lia; cbn.
      * intros Hi Hj. inversion Hi; subst earlier. cbn.
        etrans; [|apply Hlater; by eapply list_elem_of_lookup_2].
        rewrite Hstep. apply prefix_app, prefix_cons, prefix_nil.
      * apply IH. lia.
    + by apply IH.
Qed.

Lemma histories_grow_witness :
  chat_history (mkAgentInput "Find flights to Paris" [greeting])
    ++ [HumanMessage (input (mkAgentInput "Find flights to Paris" [greeting]))]
    `prefix_of`
  chat_history
    (mkAgentInput "book the cheaper one"
       [greeting; HumanMessage "Find flights to Paris";
        AIMessage "Two flights found." []]).
Proof.
  exact (histories_grow (echo_agent "Two flights found.")
           [Some "Find flights to Paris"; Some "book the cheaper one"] None tt
           0 1 (mkAgentInput "Find flights to Paris" [greeting])
           (mkAgentInput "book the cheaper one"
              [greeting; HumanMessage "Find flights to Paris";
               AIMessage "Two flights found." []])
           (Nat.lt_0_1) eq_refl eq_refl).
Defined.

Lemma alternating_two_more (l : list Message) (prompt answer : string) :
  Nat.odd (length l) = true ->
  alternating l ->
  alternating (l ++ [HumanMessage prompt; AIMessage answer []]).
Proof.
  intros Hodd Hl i m Hi.
  apply lookup_app_Some in Hi as [Hi|[Hge Hi]]; [by apply Hl|].
  assert (Nat.even (length l) = false) as Heven.
  { unfold Nat.odd in Hodd. by apply negb_true_iff in Hodd. }
  replace i with ((i - length l) + length l)%nat by lia.
  destruct (i - length l)%nat as [|[|k]]; cbn in Hi.
  - inversion Hi. cbn. by rewrite Heven.
  - inversion Hi. cbn [Nat.add]. rewrite Nat.even_succ. cbn. by rewrite Hodd.
  - discriminate Hi.
Qed.

Lemma session_takes_turns {St : Type}
    (agent_executor_invoke : AgentInput -> St -> Outcome AgentResponse * St) :
  never_raises agent_executor_invoke ->
  forall inputs session_state agent,
    Nat.odd (length (default [greeting] session_state)) = true ->
    alternating (default [greeting] session_state) ->
    alternating (run_session agent_executor_invoke session_state inputs agent).1
    /\ length (run_session agent_executor_invoke session_state inputs agent).1
       = (length (default [greeting] session_state)
          + 2 * length (run_session agent_executor_invoke session_state inputs
                          agent).2)%nat.
Proof.
  intros Hreturns.
  induction inputs as [|chat_input rest IH]; intros session_state agent Hodd Halt.
  - cbn. split; [assumption|lia].
  - cbn [run_session].
    pose proof (run_script_messages agent_executor_invoke session_state chat_input
                  agent) as Hstep.
    pose proof (run_script_invoked agent_executor_invoke session_state chat_input
                  agent) as Hsent.
    cbn zeta in Hstep.
    set (r := run_script agent_executor_invoke session_state chat_input agent) in *.
    specialize (IH (Some (messages_after r)) (agent_after r)).
    destruct (run_session agent_executor_invoke (Some (messages_after r)) rest
                (agent_after r)) as [final sent].
    cbn in IH |- *. rewrite Hsent.
    destruct (truthy chat_input).
    + destruct (Hreturns (mkAgentInput (default "" chat_input)
                            (default [greeting] session_state)) agent)
        as (response & agent' & Hreturn).
      rewrite Hreturn in Hstep. cbn in Hstep.
      destruct IH as [Hfinal Hlen].
      * rewrite Hstep, length_app. cbn.
        rewrite Nat.add_comm. cbn. exact Hodd.
      * rewrite Hstep. by apply alternating_two_more.
      * split; [assumption|].
        rewrite Hlen, Hstep, length_app. cbn. lia.
    + rewrite app_nil_r in Hstep. rewrite Hstep in IH.
      destruct (IH Hodd Halt) as [Hfinal Hlen]. split; [assumption|].
      cbn. exact Hlen.
Qed.

(** X17: with an agent that returns on every call, a fresh session's
    transcript takes turns, assistant (the greeting) first: assistant at the
    even positions, user at the odd ones; and it is one message longer than
    twice the number of requests sent. *)
Theorem fresh_session_takes_turns {St : Type}
    (agent_executor_invoke : AgentInput -> St -> Outcome AgentResponse * St)
    (inputs : list (option string)) (agent : St) :
  never_raises agent_executor_invoke ->
  alternating (run_session agent_executor_invoke None inputs agent).1
  /\ length (run_session agent_executor_invoke None inputs agent).1
     = (1 + 2 * length (run_session agent_executor_invoke None inputs agent).2)%nat.
Proof.
  intros Hreturns.
  apply (session_takes_turns agent_executor_invoke Hreturns inputs None agent).
  - reflexivity.
  - intros i m Hi. destruct i as [|i]; [by inversion Hi|discriminate Hi].
Qed.

Lemma fresh_session_takes_turns_witness :
  length
    (run_session (echo_agent "Two flights found.") None
       [Some "Find flights to Paris"; None; Some "book the cheaper one"] tt).1
  = (1 + 2 * length
             (run_session (echo_agent "Two flights found.") None
                [Some "Find flights to Paris"; None; Some "book the cheaper one"]
                tt).2)%nat.
Proof.
  exact (proj2 (fresh_session_takes_turns (echo_agent "Two flights found.")
                  [Some "Find flights to Paris"; None; Some "book the cheaper one"]
                  tt
                  (λ request a,
                     ex_intro _ (mkAgentResponse "Two flights found.")
                       (ex_intro _ a eq_refl)))).
Defined.

(** X18: what the model is shown on a turn is the system message, then
    the transcript as it stands when the agent is called (the earlier
    messages and, last, the new input), then the scratchpad: the history
    slice and the [{input}] slot together put the transcript back, nothing
    lost and nothing twice.  The date in the system message is the one read
    when the module was loaded. *)
Theorem prompt_shows_transcript_once {St : Type}
    (agent_executor_invoke : AgentInput -> St -> Outcome AgentResponse * St)
    (session_state : option (list Message)) (prompt : string) (agent : St)
    (today_at_load : date) (agent_scratchpad : list Message)
    (request : AgentInput) :
  invoked (run_script agent_executor_invoke session_state (Some prompt) agent)
    = Some request ->
  agent_prompt today_at_load (chat_history request) (input request) agent_scratchpad
    = SystemMessage (system_text (date_isoformat today_at_load))
      :: (Chat <$> (default [greeting] session_state ++ [HumanMessage prompt]))
         ++ (Chat <$> agent_scratchpad).
Proof.
  rewrite run_script_invoked.
  destruct (truthy (Some prompt)); [|discriminate].
  intros H. inversion H; subst request. cbn.
  unfold agent_prompt. cbn. by rewrite fmap_app, <- app_assoc.
Qed.

Lemma prompt_shows_transcript_once_witness :
  agent_prompt (mkDate 2025 1 1) [greeting] "Find flights to Paris" []
  = SystemMessage (system_text (date_isoformat (mkDate 2025 1 1)))
    :: (Chat <$> (default [greeting] None ++ [HumanMessage "Find flights to Paris"]))
       ++ (Chat <$> []).
Proof.
  exact (prompt_shows_transcript_once (echo_agent "Two flights found.") None
           "Find flights to Paris" tt (mkDate 2025 1 1) []
           (mkAgentInput "Find flights to Paris" [greeting]) eq_refl).
Defined.

(** ** Splitting and joining *)

Lemma prefix_to_inv (s : string) :
  String.prefix " to " s = true -> exists t, s = " to " +:+ t.
Proof.
  destruct s as [|c1 [|c2 [|c3 [|c4 t]]]]; cbn [String.prefix];
    repeat (match goal with
            | |- context [ascii_dec ?a ?b] => destruct (ascii_dec a b) as [<-|]
            end; cbn [String.prefix]);
    try discriminate.
  intros _. by exists t.
Qed.

Lemma split_from_nonempty (sep s : string) (skip : nat) (cur : string) :
  split_from sep s skip cur <> [].
Proof.
  revert skip cur. induction s as [|c s IH]; intros skip cur; cbn [split_from];
    [done|].
  destruct skip; [|apply IH].
  destruct (String.prefix sep (String c s)); [done|apply IH].
Qed.

Lemma concat_cons (sep x : string) (l : list string) :
  l <> [] -> String.concat sep (x :: l) = x +:+ sep +:+ String.concat sep l.
Proof. destruct l; [congruence|reflexivity]. Qed.

Lemma join_split_from (n : nat) :
  forall s cur,
    (String.length s <= n)%nat ->
    String.concat " to " (split_from " to " s 0 cur) = cur +:+ s.
Proof.
  induction n as [|n IH]; intros [|c s] cur Hlen; cbn in Hlen;
    try (cbn; by rewrite append_empty_r); [lia|].
  cbn [split_from].
  destruct (String.prefix " to " (String c s)) eqn:Hsep.
  - apply prefix_to_inv in Hsep as [t Ht].
    change (" to " +:+ t) with (String " " (String "t" (String "o" (String " " t))))
      in Ht.
    inversion Ht; subst c s. cbn in Hlen.
    change (split_from " to " (String "t" (String "o" (String " " t)))
              (String.length " to " - 1) "")
      with (split_from " to " t 0 "").
    rewrite concat_cons by apply split_from_nonempty.
    rewrite (IH t "") by lia. reflexivity.
  - rewrite (IH s) by lia. by rewrite append_assoc.
Qed.

(** X19: splitting [travel_dates] around [" to "] loses nothing: there is
    always at least one piece, and the pieces joined with [" to "] give the
    string back. *)
Theorem split_then_join (s : string) :
  split " to " s <> [] /\ String.concat " to " (split " to " s) = s.
Proof.
  split; [apply split_from_nonempty|].
  unfold split. by rewrite (join_split_from (String.length s) s "").
Qed.

(** ** The default start date *)

Lemma days_in_month_bounds (y m : Z) : 28 <= days_in_month y m <= 31.
Proof.
  unfold days_in_month.
  destruct (m =? 2); [destruct (is_leap y); lia|].
  destruct ((m =? 4) || (m =? 6) || (m =? 9) || (m =? 11)); lia.
Qed.

Lemma days_in_january (y : Z) : days_in_month y 1 = 31.
Proof. reflexivity. Qed.

Lemma valid_date_spec (d : date) :
  valid_date d = true
  <-> 1 <= year d <= MAXYEAR /\ 1 <= month d <= 12
      /\ 1 <= day d <= days_in_month (year d) (month d).
Proof.
  unfold valid_date. rewrite !andb_true_iff, !Z.leb_le. tauto.
Qed.

(** Where [k] days lead from a date of the year [y0]: to a date of that
    year, or into the first [k] days of the next. *)
Lemma iter_next_day (d : date) (k : nat) :
  1 <= month d <= 12 ->
  1 <= day d <= days_in_month (year d) (month d) ->
  (k <= 30)%nat ->
  let d' := Nat.iter k next_day d in
  1 <= month d' <= 12
  /\ 1 <= day d' <= days_in_month (year d') (month d')
  /\ (year d' = year d
      \/ (year d' = year d + 1 /\ month d' = 1 /\ day d' <= Z.of_nat k)).
Proof.
  intros Hm Hd. induction k as [|k IH]; intros Hk; cbn zeta.
  - cbn. auto.
  - cbn [Nat.iter nat_rect]. destruct IH as (Hm' & Hd' & Hy'); [lia|].
    set (e := Nat.iter k next_day d) in *.
    fold (Nat.iter k next_day d). fold e.
    unfold next_day.
    destruct (day e <? days_in_month (year e) (month e)) eqn:Hlast;
      [apply Z.ltb_lt in Hlast|apply Z.ltb_ge in Hlast]; cbn [year month day].
    + split; [lia|]. split; [lia|].
      destruct Hy' as [Hy'|(Hy' & Hjan & Hday)]; [by left|].
      right. split; [assumption|]. split; [assumption|]. lia.
    + destruct (month e <? 12) eqn:Hdec;
        [apply Z.ltb_lt in Hdec|apply Z.ltb_ge in Hdec]; cbn [year month day].
      * pose proof (days_in_month_bounds (year e) (month e + 1)).
        split; [lia|]. split; [lia|].
        destruct Hy' as [Hy'|(Hy' & Hjan & Hday)]; [by left|].
        rewrite Hjan, days_in_january in Hlast, Hd'. lia.
      * rewrite days_in_january. split; [lia|]. split; [lia|].
        destruct Hy' as [Hy'|(Hy' & Hjan & Hday)]; [|lia].
        right. split; [lia|]. split; [reflexivity|lia].
Qed.

(** X20: with a clock that reads a valid date of a four-digit year before
    9999, the default start date exists: adding the 28 days raises nothing
    and gives a valid date, which [search_flights] stamps on the offers in
    the shape [YYYY-MM-DD] when no dates are given. *)
Theorem default_start_date_well_formed (env : Env) (destination : string)
    (w : World) :
  valid_date (today env) = true ->
  1000 <= year (today env) < MAXYEAR ->
  exists d0,
    date_add_days (today env) 28 = Returned d0
    /\ valid_date d0 = true
    /\ 1000 <= year d0
    /\ iso_date_shape (strftime_Ymd d0) = true
    /\ outcome_of (search_flights env destination None) w
       = Returned (flight_offers destination (strftime_Ymd d0)).
Proof.
  intros Hvalid Hyear. apply valid_date_spec in Hvalid as (_ & Hm & Hd).
  pose proof (iter_next_day (today env) 28 Hm Hd ltac:(lia)) as (Hm' & Hd' & Hy').
  cbn zeta in Hm', Hd', Hy'.
  set (d0 := Nat.iter 28 next_day (today env)) in *.
  assert (year d0 <= MAXYEAR) as Hmax by (unfold MAXYEAR in *; lia).
  assert (date_add_days (today env) 28 = Returned d0) as Hd0.
  { unfold date_add_days. fold d0. cbv zeta.
    by apply Z.leb_le in Hmax as ->. }
  exists d0. split; [assumption|]. split.
  { apply valid_date_spec. unfold MAXYEAR in *. lia. }
  split; [lia|]. split; [apply strftime_Ymd_shape; lia|].
  unfold search_flights. run_tool. rewrite Hd0. reflexivity.
Qed.

Lemma default_start_date_well_formed_witness :
  exists d0,
    date_add_days (today sample_outside) 28 = Returned d0
    /\ valid_date d0 = true
    /\ 1000 <= year d0
    /\ iso_date_shape (strftime_Ymd d0) = true
    /\ outcome_of (search_flights sample_outside "Paris" None) empty_world
       = Returned (flight_offers "Paris" (strftime_Ymd d0)).
Proof.
  apply (default_start_date_well_formed sample_outside "Paris" empty_world).
  - reflexivity.
  - unfold MAXYEAR. cbn. lia.
Defined.

(** ** The calendar tool: a token file that cannot be read or written *)

(** X21: a [token.json] that exists but does not load is not replaced:
    the loading error leaves the tool, no refresh and no consent flow is
    tried, nothing is written and no event is inserted. *)
Theorem corrupt_token_file_is_fatal (env : Env)
    (title start_time end_time description : string) (w : World)
    (text : string) (e : Exn) :
  files w !! "token.json" = Some text ->
  from_authorized_user_file env text = Raised e ->
  let run := create_calendar_event env title start_time end_time description in
  outcome_of run w = Raised e
  /\ calls (world_after run w) = calls w
  /\ files (world_after run w) = files w.
Proof.
  intros Hstored Hload run. subst run. run_calendar.
  by rewrite Hstored, Hload.
Qed.

Lemma corrupt_token_file_is_fatal_witness :
  outcome_of
    (create_calendar_event
       (outside (Raised (mkExn ValueError "Expecting value: line 1 column 1 (char 0)"))
          (Returned refreshed_creds) (Returned refreshed_creds)
          (Returned created_event))
       "Trip to Paris" "2025-06-01T08:00:00" "2025-06-01T11:00:00" "Flight FL123")
    (world_with_token "not json")
  = Raised (mkExn ValueError "Expecting value: line 1 column 1 (char 0)").
Proof.
  exact (proj1 (corrupt_token_file_is_fatal
                  (outside
                     (Raised (mkExn ValueError "Expecting value: line 1 column 1 (char 0)"))
                     (Returned refreshed_creds) (Returned refreshed_creds)
                     (Returned created_event))
                  "Trip to Paris" "2025-06-01T08:00:00" "2025-06-01T11:00:00"
                  "Flight FL123" (world_with_token "not json") "not json"
                  (mkExn ValueError "Expecting value: line 1 column 1 (char 0)")
                  eq_refl eq_refl)).
Defined.

(** X22: when the refreshed credential cannot be saved ([token.json]
    cannot be opened for writing), the refresh has been made but is lost:
    the error leaves the tool, the files are as before and no event is
    inserted. *)
Theorem unwritable_token_file_loses_refresh (env : Env)
    (title start_time end_time description : string) (w : World)
    (text : string) (c c' : Credentials) (e : Exn) :
  files w !! "token.json" = Some text ->
  from_authorized_user_file env text = Returned c ->
  expired c = true ->
  truthy (refresh_token c) = true ->
  refresh env c = Returned c' ->
  open_w env "token.json" = Some e ->
  let run := create_calendar_event env title start_time end_time description in
  outcome_of run w = Raised e
  /\ calls (world_after run w) = calls w ++ [CallRefresh]
  /\ files (world_after run w) = files w.
Proof.
  intros Hstored Hload Hexpired Htoken Hrefresh Hopen run. subst run.
  unfold outcome_of, world_after. rewrite create_calendar_event_steps.
  set (w0 := world_after (print _) w).
  assert (files w0 !! "token.json" = Some text) as Hstored0 by exact Hstored.
  rewrite (obtain_stored_expired env w0 text c Hstored0 Hload Hexpired Htoken).
  cbv zeta. by rewrite Hrefresh, Hopen.
Qed.

Lemma unwritable_token_file_loses_refresh_witness :
  outcome_of
    (create_calendar_event
       {| today := mkDate 2025 1 1; fromisoformat := fromisoformat_date;
          from_authorized_user_file _ := Returned expired_creds;
          refresh _ := Returned refreshed_creds;
          from_client_secrets_file _ := Returned tt;
          run_local_server := Returned refreshed_creds;
          open_w _ := Some (mkExn OSError "[Errno 13] Permission denied: 'token.json'");
          build _ := Returned tt;
          events_insert _ _ := Returned created_event |}
       "Trip to Paris" "2025-06-01T08:00:00" "2025-06-01T11:00:00" "Flight FL123")
    (world_with_token "{stale}")
  = Raised (mkExn OSError "[Errno 13] Permission denied: 'token.json'").
Proof.
  exact (proj1 (unwritable_token_file_loses_refresh
                  {| today := mkDate 2025 1 1; fromisoformat := fromisoformat_date;
                     from_authorized_user_file _ := Returned expired_creds;
                     refresh _ := Returned refreshed_creds;
                     from_client_secrets_file _ := Returned tt;
                     run_local_server := Returned refreshed_creds;
                     open_w _ :=
                       Some (mkExn OSError "[Errno 13] Permission denied: 'token.json'");
                     build _ := Returned tt;
                     events_insert _ _ := Returned created_event |}
                  "Trip to Paris" "2025-06-01T08:00:00" "2025-06-01T11:00:00"
                  "Flight FL123" (world_with_token "{stale}") "{stale}"
                  expired_creds refreshed_creds
                  (mkExn OSError "[Errno 13] Permission denied: 'token.json'")
                  eq_refl eq_refl eq_refl eq_refl eq_refl eq_refl)).
Defined.

(** ** The chat session: one request per input *)

(** X23: in a session the agent is called once for each non-empty input
    and for no other: the inputs of the requests sent are the non-empty
    chat inputs, in order. *)
Theorem one_request_per_input {St : Type}
    (agent_executor_invoke : AgentInput -> St -> Outcome AgentResponse * St)
    (inputs : list (option string)) (session_state : option (list Message))
    (agent : St) :
  input <$> (run_session agent_executor_invoke session_state inputs agent).2
    = default "" <$> filter (λ chat_input, truthy chat_input = true) inputs.
Proof.
  revert session_state agent.
  induction inputs as [|chat_input rest IH]; intros session_state agent;
    [reflexivity|].
  cbn [run_session].
  pose proof (run_script_invoked agent_executor_invoke session_state chat_input
                agent) as Hsent.
  set (r := run_script agent_executor_invoke session_state chat_input agent) in *.
  specialize (IH (Some (messages_after r)) (agent_after r)).
  destruct (run_session agent_executor_invoke (Some (messages_after r)) rest
              (agent_after r)) as [final sent].
  cbn [fst snd] in IH |- *. rewrite Hsent, filter_cons, fmap_app.
  destruct (truthy chat_input) eqn:Htruthy.
  - rewrite decide_True by reflexivity. cbn. by rewrite IH.
  - rewrite decide_False by discriminate. exact IH.
Qed.
